(** * Server manager (manage.py): process discovery, liveness probe and
      start / stop / restart / status control sequence.

    The script is a linear sequence of calls into the operating system
    (process table, child processes, signals), the network (one HTTP
    probe), the file system and the terminal.  It is embedded as a program
    in a small free monad [Prog]: every library call of the source is an
    [Event] answered by the environment, every [print] an output line, and
    Python exceptions are the [Raise] constructor, caught by [try_except].
    A program is run against an arbitrary environment handler, which yields
    its result, the final environment state and the trace of everything it
    did, in order. *)

From Stdlib Require Import String Ascii List ZArith Lia Bool.
From stdpp Require Import base option list gmap strings.
Import ListNotations.

(** ** Python string operations used by the script *)

Module PyStr.

(** [str.lower()] on the ASCII letters; other characters are kept. *)
Definition lower_ascii (c : ascii) : ascii :=
  let n := nat_of_ascii c in
  if (65 <=? n)%nat && (n <=? 90)%nat then ascii_of_nat (n + 32) else c.

Fixpoint lower (s : string) : string :=
  match s with
  | EmptyString => EmptyString
  | String c s' => String (lower_ascii c) (lower s')
  end.

(** [sub in s] *)
Fixpoint contains (sub s : string) : bool :=
  String.prefix sub s ||
  match s with
  | EmptyString => false
  | String _ s' => contains sub s'
  end.

(** [s.count(sub)]: occurrences found left to right without overlap;
    [skip] characters of the last match are still to be passed. *)
Fixpoint count_from (sub s : string) (skip : nat) : nat :=
  match s with
  | EmptyString =>
      match skip with
      | O => if String.prefix sub EmptyString then 1 else 0
      | S _ => 0
      end
  | String _ s' =>
      match skip with
      | S k => count_from sub s' k
      | O =>
          if String.prefix sub s
          then S (count_from sub s' (String.length sub - 1))
          else count_from sub s' 0
      end
  end.

Definition count (s sub : string) : nat := count_from sub s 0.

(** [str.strip()] for the ASCII white space characters. *)
Definition is_space (c : ascii) : bool :=
  let n := nat_of_ascii c in
  ((9 <=? n)%nat && (n <=? 13)%nat) || ((28 <=? n)%nat && (n <=? 32)%nat).

Fixpoint lstrip (s : string) : string :=
  match s with
  | EmptyString => EmptyString
  | String c s' => if is_space c then lstrip s' else s
  end.

Fixpoint rstrip (s : string) : string :=
  match s with
  | EmptyString => EmptyString
  | String c s' =>
      match rstrip s' with
      | EmptyString => if is_space c then EmptyString else String c EmptyString
      | r => String c r
      end
  end.

Definition strip (s : string) : string := rstrip (lstrip s).

End PyStr.

(** ** Values exchanged with the libraries *)

(** The two exceptions of [psutil] the script handles. *)
Inductive psutil_error : Type :=
| NoSuchProcess
| AccessDenied.

(** Python exceptions that the calls of the script can raise. *)
Inductive Exn : Type :=
| PsutilError (e : psutil_error)
| FileNotFoundError
| CalledProcessError (returncode : Z)
| RequestException (kind : string)   (* ConnectionError, Timeout, ... *)
| OSError (what : string)
| KeyboardInterrupt.

(** [requests.Response]: the status code and the body. *)
Record Response : Type := mkResponse {
  status_code : Z;
  body : string
}.

(** [subprocess.CompletedProcess] *)
Record CompletedProcess : Type := mkCompleted {
  returncode : Z;
  stdout : string
}.

(** [proc.info] for the attributes ['pid', 'name', 'cmdline']; an attribute
    the OS does not disclose is [None]. *)
Record ProcInfo : Type := mkInfo {
  pid : Z;
  name : option string;
  cmdline : option (list string)
}.

(** One process yielded by [psutil.process_iter]: its attributes can be
    read, or reading them raises because the process has gone or denies
    access. *)
Inductive Process : Type :=
| Visible (info : ProcInfo)
| Faulty (e : psutil_error).

(** Arguments of [subprocess.Popen]. *)
Inductive PopenArgs : Type :=
| PopenShell (command : string)           (* shell=True *)
| PopenDevnull (args : list string).      (* stdout=DEVNULL, stderr=DEVNULL *)

(** ** Output lines: one constructor per [print] call of the source *)

Inductive Msg : Type :=
(* print_header *)
| MsgHeaderTop | MsgHeaderTitle | MsgHeaderBottom
(* check_node_installed *)
| MsgNodeInstalled (version : string)     (* "✓ Node.js is installed: ..." *)
| MsgNodeMissing                          (* "✗ Node.js is not installed. ..." *)
(* check_dependencies *)
| MsgDepsInstalling                       (* "⚠ Dependencies not installed. Installing now..." *)
| MsgDepsInstalled                        (* "✓ Dependencies installed successfully" *)
| MsgDepsPresent                          (* "✓ Dependencies are installed" *)
(* check_env_file *)
| MsgEnvNotFound                          (* "⚠ .env file not found!" *)
| MsgEnvCreating                          (* "Creating .env file from template..." *)
| MsgEnvPleaseUpdate                      (* "⚠ Please update .env with your actual API keys:" *)
| MsgEnvHintClaude | MsgEnvHintPerplexity
| MsgEnvKeysNeedUpdate                    (* "⚠ API keys need to be updated in .env file" *)
| MsgEnvFormatClaude | MsgEnvFormatPerplexity
| MsgEnvExists                            (* "✓ .env file exists" *)
(* start_server *)
| MsgStarting                             (* "Starting server..." *)
| MsgAlreadyRunning                       (* "⚠ Server is already running!" *)
| MsgAccessItAt                           (* "📍 Access it at: http://localhost:3000" *)
| MsgWaiting                              (* "Waiting for server to start..." *)
| MsgStarted                              (* "✅ Server started successfully!" *)
| MsgAccessApplication                    (* "📍 Access the application at: ..." *)
| MsgRememberKeys                         (* "⚠ Remember to update your API keys in the .env file!" *)
| MsgFeaturesTitle
| MsgFeatureDocuments | MsgFeatureQuestions | MsgFeatureResearch
| MsgFeatureIntegration | MsgFeatureUpdates
| MsgFailedToStart                        (* "✗ Server failed to start. Check the console for errors." *)
(* stop_server *)
| MsgStopping                             (* "Stopping server..." *)
| MsgNoProcesses                          (* "⚠ No server processes found running" *)
| MsgStoppedProcess (p : Z)               (* "✓ Stopped process {pid}" *)
| MsgCouldNotStop (p : Z)                 (* "⚠ Could not stop process {pid}" *)
| MsgStoppedOk                            (* "✅ Server stopped successfully" *)
| MsgMayStillRun                          (* "⚠ Server may still be running. Try ... again." *)
(* restart_server *)
| MsgRestarting                           (* "Restarting server..." *)
| MsgBlank                                (* print("") *)
(* check_status *)
| MsgChecking                             (* "Checking server status..." *)
| MsgRunning                              (* "✅ Server is running" *)
| MsgAccessAt                             (* "📍 Access at: http://localhost:3000" *)
| MsgProcessIds (pids : list Z)           (* "Process IDs: 1, 2, ..." *)
| MsgNotRunning                           (* "⚠ Server is not running" *)
| MsgStartHint                            (* "Start it with: python manage.py start" *)
(* show_help *)
| MsgDoc                                  (* the module docstring *)
| MsgCommandsTitle
| MsgHelpStart | MsgHelpStop | MsgHelpRestart | MsgHelpStatus | MsgHelpHelp
(* main and the top level *)
| MsgUnknownCommand (command : string)    (* "✗ Unknown command: {command}" *)
| MsgInterrupted                          (* "Interrupted by user" *)
| MsgError (e : Exn).                     (* "Error: {e}" *)

(** ** Calls into the environment *)

(** Each constructor is one library call; its index is the type of what the
    call gives back.  A sum has the raised exception on the left. *)
Inductive Event : Type -> Type :=
| RequestsGet (url : string) (timeout : Z) : Event (Exn + Response)
| ProcessIter (attrs : list string) : Event (list Process)
| SubprocessRun (args : list string) : Event (Exn + CompletedProcess)
| PathExists (path : string) : Event bool
| WriteFile (path content : string) : Event (option Exn)
| ReadFile (path : string) : Event (Exn + string)
| Popen (args : PopenArgs) : Event (option Exn)
| Sleep (seconds : Z) : Event unit
| Terminate (p : Z) : Event (option psutil_error).

(** ** The program monad *)

Inductive Prog (A : Type) : Type :=
| Ret (a : A)
| Raise (e : Exn)
| Out (m : Msg) (k : Prog A)
| Vis {X : Type} (e : Event X) (k : X -> Prog A).

Arguments Ret {A} a.
Arguments Raise {A} e.
Arguments Out {A} m k.
Arguments Vis {A X} e k.

Fixpoint pbind {A B : Type} (p : Prog A) (f : A -> Prog B) : Prog B :=
  match p with
  | Ret a => f a
  | Raise e => Raise e
  | Out m k => Out m (pbind k f)
  | Vis e k => Vis e (fun x => pbind (k x) f)
  end.

#[global] Instance Prog_ret : MRet Prog := @Ret.
#[global] Instance Prog_bind : MBind Prog := fun A B f p => pbind p f.

(** [try: p except: handler e] *)
Fixpoint pcatch {A : Type} (p : Prog A) (handler : Exn -> Prog A) : Prog A :=
  match p with
  | Ret a => Ret a
  | Raise e => handler e
  | Out m k => Out m (pcatch k handler)
  | Vis e k => Vis e (fun x => pcatch (k x) handler)
  end.

(** [try: p except (classes): q]; an exception of another class goes on. *)
Definition try_except {A : Type} (p : Prog A) (classes : Exn -> bool)
    (q : Prog A) : Prog A :=
  pcatch p (fun e => if classes e then q else Raise e).

Definition trigger {X : Type} (e : Event X) : Prog X := Vis e Ret.

Definition print (m : Msg) : Prog unit := Out m (Ret tt).

(** An exception answered by the environment is raised in the program. *)
Definition raising {X : Type} (e : Event (Exn + X)) : Prog X :=
  r ← trigger e;
  match r with
  | inl ex => Raise ex
  | inr x => mret x
  end.

Definition raising_unit (e : Event (option Exn)) : Prog unit :=
  r ← trigger e;
  match r with
  | Some ex => Raise ex
  | None => mret tt
  end.

(** [for x in xs: body x] *)
Fixpoint for_each {X : Type} (xs : list X) (body : X -> Prog unit) : Prog unit :=
  match xs with
  | [] => mret tt
  | x :: xs' => body x ;; for_each xs' body
  end.

(** [for x in xs: acc = body acc x], for a loop that updates a local. *)
Fixpoint for_fold {X Acc : Type} (xs : list X) (acc : Acc)
    (body : Acc -> X -> Prog Acc) : Prog Acc :=
  match xs with
  | [] => mret acc
  | x :: xs' => acc' ← body acc x; for_fold xs' acc' body
  end.

(** ** The script, function by function *)

Module Manage.

Definition SERVER_URL : string := "http://localhost:3000/api/load-files".
Definition ENV_PATH : string := ".env".

(** [print_header] *)
Definition print_header : Prog unit :=
  print MsgHeaderTop ;;
  print MsgHeaderTitle ;;
  print MsgHeaderBottom.

Definition is_FileNotFoundError (e : Exn) : bool :=
  match e with
  | FileNotFoundError => true
  | _ => false
  end.

(** [except (psutil.NoSuchProcess, psutil.AccessDenied)] *)
Definition is_NoSuchProcess_or_AccessDenied (e : Exn) : bool :=
  match e with
  | PsutilError NoSuchProcess | PsutilError AccessDenied => true
  | _ => false
  end.

(** [subprocess.run(args, check=check)]: with [check] a non-zero return
    code raises [CalledProcessError]. *)
Definition subprocess_run (args : list string) (check : bool)
    : Prog CompletedProcess :=
  result ← raising (SubprocessRun args);
  if check && negb (returncode result =? 0)%Z
  then Raise (CalledProcessError (returncode result))
  else mret result.

(** [check_node_installed]; the body of the [try] gives [Some b] when it
    returned [b] and [None] when control falls out of the [try]. *)
Definition check_node_installed : Prog bool :=
  returned ← try_except
    (result ← subprocess_run ["node"; "--version"] false;
     if (returncode result =? 0)%Z
     then print (MsgNodeInstalled (PyStr.strip (stdout result))) ;;
          mret (Some true)
     else mret None)
    is_FileNotFoundError
    (mret None);
  match returned with
  | Some b => mret b
  | None => print MsgNodeMissing ;; mret false
  end.

(** [check_dependencies] *)
Definition check_dependencies : Prog unit :=
  present ← trigger (PathExists "node_modules");
  if negb present
  then print MsgDepsInstalling ;;
       subprocess_run ["npm"; "install"] true ;;
       print MsgDepsInstalled
  else print MsgDepsPresent.

Definition NL : string := String "010"%char EmptyString.

Definition template_content : string :=
  "# Get your API keys from:" +:+ NL +:+
  "# Anthropic: https://console.anthropic.com/account/keys" +:+ NL +:+
  "# Perplexity: https://www.perplexity.ai/settings/api" +:+ NL +:+
  NL +:+
  "CLAUDE_API_KEY=YOUR_ANTHROPIC_API_KEY_HERE" +:+ NL +:+
  "PERPLEXITY_API_KEY=YOUR_PERPLEXITY_API_KEY_HERE" +:+ NL +:+
  "PORT=3000" +:+ NL.

(** The test on the contents of an existing [.env]. *)
Definition has_placeholder_keys (content : string) : bool :=
  PyStr.contains "YOUR_" content
  || PyStr.contains "sk-proj-" content
  || (PyStr.count content "pplx-" =? 1)%nat.

(** [check_env_file] *)
Definition check_env_file : Prog bool :=
  present ← trigger (PathExists ENV_PATH);
  if negb present
  then print MsgEnvNotFound ;;
       print MsgEnvCreating ;;
       raising_unit (WriteFile ENV_PATH template_content) ;;
       print MsgEnvPleaseUpdate ;;
       print MsgEnvHintClaude ;;
       print MsgEnvHintPerplexity ;;
       mret false
  else content ← raising (ReadFile ENV_PATH);
       if has_placeholder_keys content
       then print MsgEnvKeysNeedUpdate ;;
            print MsgEnvFormatClaude ;;
            print MsgEnvFormatPerplexity ;;
            mret false
       else print MsgEnvExists ;;
            mret true.

(** Reading [proc.info] of a process that has gone or denies access
    raises. *)
Definition proc_info (proc : Process) : Prog ProcInfo :=
  match proc with
  | Visible info => mret info
  | Faulty e => Raise (PsutilError e)
  end.

(** [proc.info['name'] and 'node' in proc.info['name'].lower()] *)
Definition name_is_node (info : ProcInfo) : bool :=
  match name info with
  | Some n => negb (String.eqb n "") && PyStr.contains "node" (PyStr.lower n)
  | None => false
  end.

(** [proc.info['cmdline'] and any('server.js' in cmd for cmd in ...)] *)
Definition cmdline_has_server_js (info : ProcInfo) : bool :=
  match cmdline info with
  | Some [] => false
  | Some cmds => existsb (PyStr.contains "server.js") cmds
  | None => false
  end.

(** The body of the loop of [find_node_processes], on the list
    [node_pids] collected so far. *)
Definition scan_process (node_pids : list Z) (proc : Process) : Prog (list Z) :=
  try_except
    (info ← proc_info proc;
     if name_is_node info
     then if cmdline_has_server_js info
          then mret (node_pids ++ [pid info])
          else mret node_pids
     else mret node_pids)
    is_NoSuchProcess_or_AccessDenied
    (mret node_pids).

(** [find_node_processes] *)
Definition find_node_processes : Prog (list Z) :=
  procs ← trigger (ProcessIter ["pid"; "name"; "cmdline"]);
  for_fold procs [] scan_process.

(** [is_server_running]; the bare [except:] catches every exception. *)
Definition is_server_running : Prog bool :=
  pcatch
    (response ← raising (RequestsGet SERVER_URL 2);
     mret (status_code response =? 200)%Z)
    (fun _ => mret false).

(** The [Popen] call of [start_server], by [sys.platform]. *)
Definition launch_args (platform : string) : PopenArgs :=
  if String.eqb platform "win32"
  then PopenShell "start cmd /k npm start"
  else PopenDevnull ["npm"; "start"].

(** The lines printed once the server answers. *)
Definition report_started (has_valid_env : bool) : Prog unit :=
  print MsgStarted ;;
  print MsgAccessApplication ;;
  (if negb has_valid_env then print MsgRememberKeys else mret tt) ;;
  print MsgFeaturesTitle ;;
  print MsgFeatureDocuments ;;
  print MsgFeatureQuestions ;;
  print MsgFeatureResearch ;;
  print MsgFeatureIntegration ;;
  print MsgFeatureUpdates.

(** [for i in range(10): ...] of [start_server] with [rounds] iterations
    left, followed by the line after the loop; a [return] inside the
    loop ends the function. *)
Fixpoint wait_until_ready (has_valid_env : bool) (rounds : nat) : Prog unit :=
  match rounds with
  | O => print MsgFailedToStart
  | S rounds' =>
      trigger (Sleep 1) ;;
      running ← is_server_running;
      if running : bool
      then report_started has_valid_env
      else wait_until_ready has_valid_env rounds'
  end.

(** [start_server]; [platform] is [sys.platform]. *)
Definition start_server (platform : string) : Prog unit :=
  print MsgStarting ;;
  running ← is_server_running;
  if running : bool
  then print MsgAlreadyRunning ;;
       print MsgAccessItAt
  else
    node ← check_node_installed;
    if negb node then mret tt
    else
      check_dependencies ;;
      has_valid_env ← check_env_file;
      raising_unit (Popen (launch_args platform)) ;;
      print MsgWaiting ;;
      wait_until_ready has_valid_env 10.

(** [psutil.Process(pid).terminate()] inside its [try]: the lookup of the
    process and the termination request are one call, which either of
    them can refuse with [NoSuchProcess] or [AccessDenied]. *)
Definition terminate_process (p : Z) : Prog unit :=
  refused ← trigger (Terminate p);
  match refused with
  | None => print (MsgStoppedProcess p)
  | Some _ => print (MsgCouldNotStop p)
  end.

(** [stop_server] *)
Definition stop_server : Prog unit :=
  print MsgStopping ;;
  pids ← find_node_processes;
  match pids with
  | [] => print MsgNoProcesses
  | _ =>
      for_each pids terminate_process ;;
      trigger (Sleep 1) ;;
      running ← is_server_running;
      if negb running
      then print MsgStoppedOk
      else print MsgMayStillRun
  end.

(** [restart_server] *)
Definition restart_server (platform : string) : Prog unit :=
  print MsgRestarting ;;
  stop_server ;;
  trigger (Sleep 2) ;;
  print MsgBlank ;;
  start_server platform.

(** [check_status] *)
Definition check_status : Prog unit :=
  print MsgChecking ;;
  running ← is_server_running;
  if running : bool
  then print MsgRunning ;;
       print MsgAccessAt ;;
       pids ← find_node_processes;
       match pids with
       | [] => mret tt
       | _ => print (MsgProcessIds pids)
       end
  else print MsgNotRunning ;;
       print MsgStartHint.

(** [show_help] *)
Definition show_help : Prog unit :=
  print MsgDoc ;;
  print MsgCommandsTitle ;;
  print MsgHelpStart ;;
  print MsgHelpStop ;;
  print MsgHelpRestart ;;
  print MsgHelpStatus ;;
  print MsgHelpHelp.

(** The dictionary [commands] of [main]. *)
Definition commands (platform : string) : gmap string (Prog unit) :=
  <["start" := start_server platform]>
  (<["stop" := stop_server]>
  (<["restart" := restart_server platform]>
  (<["status" := check_status]>
  (<["help" := show_help]> ∅)))).

(** [main]; [argv] is [sys.argv]. *)
Definition main (platform : string) (argv : list string) : Prog unit :=
  print_header ;;
  if (length argv <? 2)%nat
  then show_help
  else
    let command := PyStr.lower (nth 1 argv EmptyString) in
    match commands platform !! command with
    | Some operation => operation
    | None => print (MsgUnknownCommand command) ;; show_help
    end.

(** The [if __name__ == '__main__'] block; the result is the exit code. *)
Definition script (platform : string) (argv : list string) : Prog Z :=
  pcatch
    (main platform argv ;; mret 0%Z)
    (fun e =>
       match e with
       | KeyboardInterrupt => print MsgInterrupted ;; mret 0%Z
       | _ => print (MsgError e) ;; mret 1%Z
       end).

End Manage.

(** ** Running a program against an environment *)

(** The environment: a state and, for every call, its answer and the next
    state.  Output lines do not go through the environment. *)
Definition Handler (S : Type) : Type := forall X : Type, Event X -> S -> X * S.

(** What a run did, in order: the lines printed and the calls made, each
    with its answer. *)
Inductive Action : Type :=
| AOut (m : Msg)
| ACall {X : Type} (e : Event X) (x : X).

Record Run (S A : Type) : Type := mkRun {
  result : Exn + A;       (* the value returned, or the exception raised *)
  final : S;              (* the environment afterwards *)
  trace : list Action
}.

Arguments mkRun {S A} result final trace.
Arguments result {S A} r.
Arguments final {S A} r.
Arguments trace {S A} r.

Fixpoint run {S A : Type} (h : Handler S) (p : Prog A) (s : S) : Run S A :=
  match p with
  | Ret a => mkRun (inr a) s []
  | Raise e => mkRun (inl e) s []
  | Out m k =>
      let r := run h k s in
      mkRun (result r) (final r) (AOut m :: trace r)
  | Vis e k =>
      let r := run h (k (h _ e s).1) (h _ e s).2 in
      mkRun (result r) (final r) (ACall e (h _ e s).1 :: trace r)
  end.

(** *** Observations on a trace *)

Module Obs.

Definition output_of (a : Action) : option Msg :=
  match a with
  | AOut m => Some m
  | ACall _ _ => None
  end.

Definition spawn_of (a : Action) : option PopenArgs :=
  match a with
  | ACall (Popen args) _ => Some args
  | _ => None
  end.

Definition signal_of (a : Action) : option Z :=
  match a with
  | ACall (Terminate p) _ => Some p
  | _ => None
  end.

Definition probe_of (a : Action) : option (string * Z) :=
  match a with
  | ACall (RequestsGet url timeout) _ => Some (url, timeout)
  | _ => None
  end.

Definition sleep_of (a : Action) : option Z :=
  match a with
  | ACall (Sleep seconds) _ => Some seconds
  | _ => None
  end.

Definition scan_of (a : Action) : option (list string) :=
  match a with
  | ACall (ProcessIter attrs) _ => Some attrs
  | _ => None
  end.

Definition subprocess_of (a : Action) : option (list string) :=
  match a with
  | ACall (SubprocessRun args) _ => Some args
  | _ => None
  end.

Definition write_of (a : Action) : option (string * string) :=
  match a with
  | ACall (WriteFile path content) _ => Some (path, content)
  | _ => None
  end.

(** A [PathExists] call on [path] that was answered "no". *)
Definition absent_of (path : string) (a : Action) : option unit :=
  match a with
  | ACall (PathExists p) false => if String.eqb p path then Some tt else None
  | _ => None
  end.

Definition is_call (a : Action) : bool :=
  match a with
  | AOut _ => false
  | ACall _ _ => true
  end.

(** The lines printed. *)
Definition outputs (tr : list Action) : list Msg := omap output_of tr.
(** The child processes launched. *)
Definition spawns (tr : list Action) : list PopenArgs := omap spawn_of tr.
(** The pids a termination was requested for. *)
Definition signals (tr : list Action) : list Z := omap signal_of tr.
(** The HTTP probes. *)
Definition probes (tr : list Action) : list (string * Z) := omap probe_of tr.
Definition sleeps (tr : list Action) : list Z := omap sleep_of tr.
(** The scans of the process table. *)
Definition scans (tr : list Action) : list (list string) := omap scan_of tr.
(** The commands run to completion ([node --version], [npm install]). *)
Definition subprocesses (tr : list Action) : list (list string) :=
  omap subprocess_of tr.
Definition file_writes (tr : list Action) : list (string * string) :=
  omap write_of tr.
Definition absences (path : string) (tr : list Action) : list unit :=
  omap (absent_of path) tr.
(** The calls into the environment, without the output. *)
Definition calls (tr : list Action) : list Action := List.filter is_call tr.

End Obs.

(** ** A small simulated machine

    A concrete environment on which the programs can be run: a process
    table, a server that answers on its port some seconds after it was
    launched, and a file system. *)

Module SimOS.

Record World : Type := mkWorld {
  procs : list Process;          (* the process table *)
  listening : bool;              (* the server answers on port 3000 *)
  booting : option nat;          (* a launched server answers in so many seconds *)
  boot_time : nat;               (* what a launch sets [booting] to *)
  files : gmap string string;
  dirs : gset string;
  node_version : option string;  (* [None]: Node.js is not installed *)
  shielded : list Z              (* pids that deny termination *)
}.

Definition is_server (proc : Process) : bool :=
  match proc with
  | Visible info => Manage.name_is_node info && Manage.cmdline_has_server_js info
  | Faulty _ => false
  end.

Definition has_pid (p : Z) (proc : Process) : bool :=
  match proc with
  | Visible info => (pid info =? p)%Z
  | Faulty _ => false
  end.

Definition fresh_pid (ps : list Process) : Z :=
  (1 + fold_right
         (fun proc acc =>
            match proc with
            | Visible info => Z.max (pid info) acc
            | Faulty _ => acc
            end) 0 ps)%Z.

Definition with_procs (w : World) (ps : list Process) (up : bool)
    (boot : option nat) : World :=
  mkWorld ps up boot (boot_time w) (files w) (dirs w) (node_version w)
    (shielded w).

Definition with_files (w : World) (fs : gmap string string) : World :=
  mkWorld (procs w) (listening w) (booting w) (boot_time w) fs (dirs w)
    (node_version w) (shielded w).

Definition with_dirs (w : World) (ds : gset string) : World :=
  mkWorld (procs w) (listening w) (booting w) (boot_time w) (files w) ds
    (node_version w) (shielded w).

(** [seconds] seconds pass. *)
Definition tick (seconds : nat) (w : World) : World :=
  match booting w with
  | Some remaining =>
      if (remaining <=? seconds)%nat
      then with_procs w (procs w) true None
      else with_procs w (procs w) (listening w) (Some (remaining - seconds))
  | None => w
  end.

Definition launch (w : World) : World :=
  let server :=
    Visible (mkInfo (fresh_pid (procs w)) (Some "node") (Some ["node"; "server.js"])) in
  match boot_time w with
  | O => with_procs w (procs w ++ [server]) true None
  | S _ => with_procs w (procs w ++ [server]) (listening w) (Some (boot_time w))
  end.

Definition kill (p : Z) (w : World) : World :=
  let rest := List.filter (fun proc => negb (has_pid p proc)) (procs w) in
  if existsb is_server rest
  then with_procs w rest (listening w) (booting w)
  else with_procs w rest false None.

Definition os : Handler World :=
  fun X e w =>
    match e in Event X return X * World with
    | RequestsGet _ _ =>
        (if listening w then inr (mkResponse 200 "[]")
         else inl (RequestException "ConnectionError"), w)
    | ProcessIter _ => (procs w, w)
    | SubprocessRun args =>
        match node_version w with
        | None => (inl FileNotFoundError, w)
        | Some v =>
            match args with
            | ["node"; "--version"] => (inr (mkCompleted 0 (v +:+ Manage.NL)), w)
            | ["npm"; "install"] =>
                (inr (mkCompleted 0 ""), with_dirs w ({["node_modules"]} ∪ dirs w))
            | _ => (inr (mkCompleted 1 ""), w)
            end
        end
    | PathExists path =>
        (bool_decide (is_Some (files w !! path)) || bool_decide (path ∈ dirs w), w)
    | WriteFile path content => (None, with_files w (<[path := content]> (files w)))
    | ReadFile path =>
        (match files w !! path with
         | Some content => inr content
         | None => inl FileNotFoundError
         end, w)
    | Popen _ =>
        match node_version w with
        | None => (Some FileNotFoundError, w)
        | Some _ => (None, launch w)
        end
    | Sleep seconds => (tt, tick (Z.to_nat seconds) w)
    | Terminate p =>
        if existsb (Z.eqb p) (shielded w) then (Some AccessDenied, w)
        else if existsb (has_pid p) (procs w) then (None, kill p w)
        else (Some NoSuchProcess, w)
    end.

(** A machine with Node.js and a filled-in [.env], nothing running; a
    launched server needs three seconds. *)
Definition idle : World :=
  mkWorld
    [Visible (mkInfo 1 (Some "init") (Some ["/sbin/init"]));
     Visible (mkInfo 310 (Some "bash") (Some ["-bash"]))]
    false None 3
    {[ ".env" := "CLAUDE_API_KEY=sk-ant-api03-abc" ]}
    {[ "node_modules" ]}
    (Some "v20.11.0")
    [].

(** The same machine with the server up as process 4242. *)
Definition live : World :=
  with_procs idle
    (procs idle ++ [Visible (mkInfo 4242 (Some "Node") (Some ["node"; "server.js"]))])
    true None.

(** The server process 4242 exists but does not answer on its port. *)
Definition hung : World := with_procs live (procs live) false None.

(** No Node.js on the machine. *)
Definition bare : World :=
  mkWorld (procs idle) false None 3 ∅ ∅ None [].

(** A fresh checkout: Node.js, but neither [node_modules] nor [.env]. *)
Definition fresh : World :=
  mkWorld (procs idle) false None 3 ∅ ∅ (Some "v20.11.0") [].

End SimOS.

(** ** Specification vocabulary *)

Module Spec.

(** [sub] occurs in [s]. *)
Definition Substring (sub s : string) : Prop :=
  exists pre post : string, s = pre +:+ sub +:+ post.

(** [proc] is a server process with identifier [p]: its name contains
    the runtime name, whatever the case of its letters, and an argument
    of its command line contains the entry point. *)
Definition server_process (proc : Process) (p : Z) : Prop :=
  exists (info : ProcInfo) (n : string) (cmds : list string) (cmd : string),
    proc = Visible info /\ pid info = p /\
    name info = Some n /\ Substring "node" (PyStr.lower n) /\
    cmdline info = Some cmds /\ In cmd cmds /\ Substring "server.js" cmd.

(** The probe answered with status 200. *)
Definition answered_ok (answer : Exn + Response) : bool :=
  match answer with
  | inr response => (status_code response =? 200)%Z
  | inl _ => false
  end.

(** One liveness poll per answer: a second of sleep, then the probe. *)
Definition polls (answers : list (Exn + Response)) : list Action :=
  flat_map
    (fun answer =>
       [ACall (Sleep 1) tt; ACall (RequestsGet Manage.SERVER_URL 2) answer])
    answers.

(** The lines that report a successful start. *)
Definition started_lines (has_valid_env : bool) : list Msg :=
  [MsgStarted; MsgAccessApplication] ++
  (if has_valid_env then [] else [MsgRememberKeys]) ++
  [MsgFeaturesTitle; MsgFeatureDocuments; MsgFeatureQuestions;
   MsgFeatureResearch; MsgFeatureIntegration; MsgFeatureUpdates].

(** One termination request per pid, each followed by its report. *)
Definition termination (p : Z) (refused : option psutil_error) : list Action :=
  [ACall (Terminate p) refused;
   AOut (match refused with
         | None => MsgStoppedProcess p
         | Some _ => MsgCouldNotStop p
         end)].

Fixpoint terminations (pids : list Z) (refusals : list (option psutil_error))
    : list Action :=
  match pids, refusals with
  | p :: pids', refused :: refusals' =>
      termination p refused ++ terminations pids' refusals'
  | _, _ => []
  end.

(** The pids the loop of [find_node_processes] keeps. *)
Definition matching_pid (proc : Process) : option Z :=
  match proc with
  | Visible info =>
      if Manage.name_is_node info && Manage.cmdline_has_server_js info
      then Some (pid info) else None
  | Faulty _ => None
  end.

Definition is_visible (proc : Process) : bool :=
  match proc with
  | Visible _ => true
  | Faulty _ => false
  end.

(** [restart()] in the words of the specification: [stop()], a pause of
    two seconds, [start()]. *)
Definition restart_spec (platform : string) : Prog unit :=
  Manage.stop_server ;;
  trigger (Sleep 2) ;;
  Manage.start_server platform.

(** The two lines [restart_server] prints itself. *)
Definition restart_line (a : Action) : option unit :=
  match a with
  | AOut MsgRestarting | AOut MsgBlank => Some tt
  | _ => None
  end.

Definition without_restart_lines (tr : list Action) : list Action :=
  List.filter
    (fun a => match restart_line a with Some _ => false | None => true end) tr.

(** The subcommand table of [main], on the lower-cased first argument. *)
Definition dispatch (platform command : string) : Prog unit :=
  if decide (command = "start") then Manage.start_server platform
  else if decide (command = "stop") then Manage.stop_server
  else if decide (command = "restart") then Manage.restart_server platform
  else if decide (command = "status") then Manage.check_status
  else if decide (command = "help") then Manage.show_help
  else print (MsgUnknownCommand command) ;; Manage.show_help.

(** [p] makes no call and prints no line that [f] observes. *)
Fixpoint silent {A B : Type} (f : Action -> option B) (p : Prog A) : Prop :=
  match p with
  | Ret _ | Raise _ => True
  | Out m k => f (AOut m) = None /\ silent f k
  | Vis e k => forall x, f (ACall e x) = None /\ silent f (k x)
  end.

(** Calls that neither write a file nor ask whether [.env] exists. *)
Definition plain_event {X : Type} (e : Event X) : bool :=
  match e with
  | WriteFile _ _ => false
  | PathExists path => negb (String.eqb path Manage.ENV_PATH)
  | _ => true
  end.

(** [writes_guarded credit p]: [p] writes no file but [.env], with the
    template, and each such write uses up one credit; a credit is earned
    each time [.env] is found absent. *)
Inductive writes_guarded {A : Type} : nat -> Prog A -> Prop :=
| wg_ret credit a : writes_guarded credit (Ret a)
| wg_raise credit e : writes_guarded credit (Raise e)
| wg_out credit m k :
    writes_guarded credit k -> writes_guarded credit (Out m k)
| wg_plain credit X (e : Event X) k :
    plain_event e = true ->
    (forall x, writes_guarded credit (k x)) ->
    writes_guarded credit (Vis e k)
| wg_check credit k :
    writes_guarded credit (k true) ->
    writes_guarded (S credit) (k false) ->
    writes_guarded credit (Vis (PathExists Manage.ENV_PATH) k)
| wg_write credit k :
    (forall x, writes_guarded credit (k x)) ->
    writes_guarded (S credit)
      (Vis (WriteFile Manage.ENV_PATH Manage.template_content) k).

End Spec.

(** Sequencing of runs: the second run starts where the first one ended,
    unless the first one raised. *)
Definition then_run {S A B : Type} (r : Run S A) (k : A -> S -> Run S B)
    : Run S B :=
  match result r with
  | inl e => mkRun (inl e) (final r) (trace r)
  | inr a =>
      mkRun (result (k a (final r))) (final (k a (final r)))
        (trace r ++ trace (k a (final r)))
  end.

(** ** Counting what a program may do *)

Module Cost.

(** What one call counts for. *)
Definition Measure : Type := forall X : Type, Event X -> nat.

Definition launching : Measure :=
  fun X e => match e with Popen _ => 1 | _ => 0 end.

Definition probing : Measure :=
  fun X e => match e with RequestsGet _ _ => 1 | _ => 0 end.

(** Seconds slept. *)
Definition sleeping : Measure :=
  fun X e => match e with Sleep seconds => Z.to_nat seconds | _ => 0 end.

Definition of_action (c : Measure) (a : Action) : nat :=
  match a with
  | AOut _ => 0
  | ACall e _ => c _ e
  end.

Definition total (c : Measure) (tr : list Action) : nat :=
  list_sum (map (of_action c) tr).

(** Whatever the environment answers, the calls of [p] count for at most
    [budget]. *)
Fixpoint within {A : Type} (c : Measure) (budget : nat) (p : Prog A) : Prop :=
  match p with
  | Ret _ | Raise _ => True
  | Out _ k => within c budget k
  | Vis e k => c _ e <= budget /\ forall x, within c (budget - c _ e) (k x)
  end.

(** What the operations may cost at most, for a measure [c]. *)
Definition probe_cost (c : Measure) : nat := c _ (RequestsGet Manage.SERVER_URL 2).

Definition scan_cost (c : Measure) : nat :=
  c _ (ProcessIter ["pid"; "name"; "cmdline"]).

Definition prerequisites_cost (c : Measure) : nat :=
  c _ (SubprocessRun ["node"; "--version"]) +
  (c _ (PathExists "node_modules") + c _ (SubprocessRun ["npm"; "install"])) +
  (c _ (PathExists Manage.ENV_PATH) +
   (c _ (ReadFile Manage.ENV_PATH) +
    c _ (WriteFile Manage.ENV_PATH Manage.template_content))).

Definition start_cost (c : Measure) (platform : string) : nat :=
  probe_cost c + prerequisites_cost c +
  c _ (Popen (Manage.launch_args platform)) +
  10 * (c _ (Sleep 1) + probe_cost c).

Definition stop_cost (c : Measure) : nat :=
  scan_cost c + c _ (Sleep 1) + probe_cost c.

Definition status_cost (c : Measure) : nat := probe_cost c + scan_cost c.

Definition restart_cost (c : Measure) (platform : string) : nat :=
  stop_cost c + c _ (Sleep 2) + start_cost c platform.

End Cost.

(** ** Further vocabulary and machines *)

Module Props.

(** The pid of a process whose attributes can be read. *)
Definition visible_pid (proc : Process) : option Z :=
  match proc with
  | Visible info => Some (pid info)
  | Faulty _ => None
  end.

(** The words [main] has an operation for. *)
Definition subcommands : list string :=
  ["start"; "stop"; "restart"; "status"; "help"].

(** The simulated machine with an [npm install] that fails. *)
Definition os_install_fails : Handler SimOS.World :=
  fun X e w =>
    match e in Event X return X * SimOS.World with
    | SubprocessRun ["npm"; "install"] => (inr (mkCompleted 1 ""), w)
    | e' => SimOS.os _ e' w
    end.

(** The simulated machine without [npm] on the path: the launch raises. *)
Definition os_launch_refused : Handler SimOS.World :=
  fun X e w =>
    match e in Event X return X * SimOS.World with
    | Popen _ => (Some FileNotFoundError, w)
    | e' => SimOS.os _ e' w
    end.

(** The simulated machine with a user who interrupts every command the
    script runs to completion. *)
Definition os_interrupted : Handler SimOS.World :=
  fun X e w =>
    match e in Event X return X * SimOS.World with
    | SubprocessRun _ => (inl KeyboardInterrupt, w)
    | e' => SimOS.os _ e' w
    end.

(** The server runs as process 4242, which denies termination. *)
Definition shielded_live : SimOS.World :=
  SimOS.mkWorld (SimOS.procs SimOS.live) true None 3 (SimOS.files SimOS.live)
    (SimOS.dirs SimOS.live) (SimOS.node_version SimOS.live) [4242%Z].

(** A launched server needs half a minute before it answers. *)
Definition slow : SimOS.World :=
  SimOS.mkWorld (SimOS.procs SimOS.idle) false None 30 (SimOS.files SimOS.idle)
    (SimOS.dirs SimOS.idle) (SimOS.node_version SimOS.idle) [].

(** A machine whose [.env] holds both keys, filled in. *)
Definition configured : SimOS.World :=
  SimOS.with_files SimOS.idle
    {[ ".env" :=
         "CLAUDE_API_KEY=sk-ant-api03-abc" +:+ Manage.NL +:+
         "PERPLEXITY_API_KEY=pplx-0123456789" +:+ Manage.NL +:+
         "PORT=3000" +:+ Manage.NL ]}.

End Props.

(** ** Laws of [run] *)

Section RunLaws.

Context {S : Type} (h : Handler S).

Lemma run_eta {A : Type} (r : Run S A) :
  mkRun (result r) (final r) (trace r) = r.
Proof. destruct r; reflexivity. Qed.

Lemma run_bind {A B : Type} (p : Prog A) (f : A -> Prog B) (s : S) :
  run h (p ≫= f) s = then_run (run h p s) (fun a s' => run h (f a) s').
Proof.
  unfold mbind, Prog_bind, then_run. revert s.
  induction p as [a | e | m k IH | X e k IH]; intros s; simpl.
  - apply eq_sym, run_eta.
  - reflexivity.
  - rewrite IH. destruct (result (run h k s)); reflexivity.
  - rewrite IH.
    destruct (result (run h (k (h X e s).1) (h X e s).2)); reflexivity.
Qed.

Lemma run_bind_ok {A B : Type} (p : Prog A) (f : A -> Prog B) (s : S) (a : A) :
  result (run h p s) = inr a ->
  run h (p ≫= f) s =
  mkRun (result (run h (f a) (final (run h p s))))
        (final (run h (f a) (final (run h p s))))
        (trace (run h p s) ++ trace (run h (f a) (final (run h p s)))).
Proof. intros Hok. rewrite run_bind. unfold then_run. rewrite Hok. reflexivity. Qed.

Lemma run_bind_raise {A B : Type} (p : Prog A) (f : A -> Prog B) (s : S) (e : Exn) :
  result (run h p s) = inl e ->
  run h (p ≫= f) s = mkRun (inl e) (final (run h p s)) (trace (run h p s)).
Proof. intros Hex. rewrite run_bind. unfold then_run. rewrite Hex. reflexivity. Qed.

Lemma run_print {B : Type} (m : Msg) (f : unit -> Prog B) (s : S) :
  run h (print m ≫= f) s =
  mkRun (result (run h (f tt) s)) (final (run h (f tt) s))
        (AOut m :: trace (run h (f tt) s)).
Proof. reflexivity. Qed.

Lemma run_trigger {X B : Type} (e : Event X) (f : X -> Prog B) (s : S) :
  run h (trigger e ≫= f) s =
  mkRun (result (run h (f (h X e s).1) (h X e s).2))
        (final (run h (f (h X e s).1) (h X e s).2))
        (ACall e (h X e s).1 :: trace (run h (f (h X e s).1) (h X e s).2)).
Proof. reflexivity. Qed.

Lemma run_pcatch_ok {A : Type} (p : Prog A) (handler : Exn -> Prog A) (s : S) (a : A) :
  result (run h p s) = inr a -> run h (pcatch p handler) s = run h p s.
Proof.
  revert s. induction p as [a' | e | m k IH | X e k IH]; intros s; simpl.
  - reflexivity.
  - discriminate.
  - intros Hok. rewrite (IH _ Hok). reflexivity.
  - intros Hok. rewrite (IH _ _ Hok). reflexivity.
Qed.

End RunLaws.

(** ** Python's [in] on strings *)

Section Strings.

Lemma prefix_spec (a b : string) :
  String.prefix a b = true <-> exists post, b = a +:+ post.
Proof.
  revert b. induction a as [| c a IH]; intros b; destruct b as [| d b]; simpl.
  - split; [intros _; exists EmptyString; reflexivity | reflexivity].
  - split; [intros _; exists (String d b); reflexivity | reflexivity].
  - split; [discriminate | intros [post Hb]; discriminate].
  - destruct (Ascii.ascii_dec c d) as [-> | Hne].
    + rewrite IH. split; intros [post Hb]; exists post.
      * simpl. now rewrite Hb.
      * simpl in Hb. now inversion Hb.
    + split; [discriminate | intros [post Hb]].
      simpl in Hb. inversion Hb. congruence.
Qed.

Lemma contains_unfold (sub s : string) :
  PyStr.contains sub s =
  String.prefix sub s ||
  match s with
  | EmptyString => false
  | String _ s' => PyStr.contains sub s'
  end.
Proof. destruct s; reflexivity. Qed.

Lemma contains_spec (sub s : string) :
  PyStr.contains sub s = true <-> Spec.Substring sub s.
Proof.
  unfold Spec.Substring. induction s as [| c s IH]; rewrite contains_unfold.
  - rewrite orb_false_r, prefix_spec. split.
    + intros [post Hp]. exists EmptyString, post. exact Hp.
    + intros [pre [post Hp]]. destruct pre; [exists post; exact Hp | discriminate].
  - rewrite orb_true_iff, prefix_spec, IH. split.
    + intros [[post Hp] | [pre [post Hp]]].
      * exists EmptyString, post. exact Hp.
      * exists (String c pre), post. simpl. now rewrite Hp.
    + intros [pre [post Hp]]. destruct pre as [| d pre].
      * left. exists post. exact Hp.
      * right. simpl in Hp. inversion Hp. exists pre, post. reflexivity.
Qed.

End Strings.

(** ** The liveness probe and the process scan *)

Section Discovery.

Context {S : Type} (h : Handler S).

Lemma run_is_server_running (s : S) :
  run h Manage.is_server_running s =
  mkRun (inr (Spec.answered_ok (h _ (RequestsGet Manage.SERVER_URL 2) s).1))
        (h _ (RequestsGet Manage.SERVER_URL 2) s).2
        [ACall (RequestsGet Manage.SERVER_URL 2)
               (h _ (RequestsGet Manage.SERVER_URL 2) s).1].
Proof.
  unfold Manage.is_server_running, raising, trigger. simpl.
  destruct ((h _ (RequestsGet Manage.SERVER_URL 2) s).1); reflexivity.
Qed.

Lemma run_scan_process (node_pids : list Z) (proc : Process) (s : S) :
  run h (Manage.scan_process node_pids proc) s =
  mkRun (inr (node_pids ++ option_list (Spec.matching_pid proc))) s [].
Proof.
  unfold Manage.scan_process, try_except, Spec.matching_pid.
  destruct proc as [info | [|]]; simpl.
  - destruct (Manage.name_is_node info); simpl;
      [destruct (Manage.cmdline_has_server_js info); simpl |];
      rewrite ?app_nil_r; reflexivity.
  - rewrite app_nil_r; reflexivity.
  - rewrite app_nil_r; reflexivity.
Qed.

Lemma run_scan (procs : list Process) (node_pids : list Z) (s : S) :
  run h (for_fold procs node_pids Manage.scan_process) s =
  mkRun (inr (node_pids ++ omap Spec.matching_pid procs)) s [].
Proof.
  revert node_pids. induction procs as [| proc procs IH]; intros node_pids.
  - simpl. rewrite app_nil_r. reflexivity.
  - cbn [for_fold]. rewrite run_bind, run_scan_process. unfold then_run.
    cbn [result final trace]. rewrite IH. cbn [result final trace app].
    change (omap Spec.matching_pid (proc :: procs))
      with (match Spec.matching_pid proc with
            | Some p => p :: omap Spec.matching_pid procs
            | None => omap Spec.matching_pid procs
            end).
    destruct (Spec.matching_pid proc); cbn [option_list];
      rewrite <- ?app_assoc, ?app_nil_r; reflexivity.
Qed.

Lemma run_find_node_processes (s : S) :
  run h Manage.find_node_processes s =
  mkRun (inr (omap Spec.matching_pid
                (h _ (ProcessIter ["pid"; "name"; "cmdline"]) s).1))
        (h _ (ProcessIter ["pid"; "name"; "cmdline"]) s).2
        [ACall (ProcessIter ["pid"; "name"; "cmdline"])
               (h _ (ProcessIter ["pid"; "name"; "cmdline"]) s).1].
Proof.
  unfold Manage.find_node_processes. rewrite run_trigger, run_scan.
  reflexivity.
Qed.

End Discovery.

Section Matching.

Lemma name_is_node_spec (info : ProcInfo) :
  Manage.name_is_node info = true <->
  exists n, name info = Some n /\ Spec.Substring "node" (PyStr.lower n).
Proof.
  unfold Manage.name_is_node. destruct (name info) as [n |].
  - rewrite andb_true_iff, contains_spec. split.
    + intros [_ Hsub]. exists n. split; [reflexivity | exact Hsub].
    + intros [n' [Hn Hsub]]. inversion Hn; subst n'. split; [| exact Hsub].
      destruct n as [| c n]; [| reflexivity].
      apply contains_spec in Hsub. discriminate.
  - split; [discriminate | intros [n [Hn _]]; discriminate].
Qed.

Lemma cmdline_has_server_js_spec (info : ProcInfo) :
  Manage.cmdline_has_server_js info = true <->
  exists cmds cmd,
    cmdline info = Some cmds /\ In cmd cmds /\ Spec.Substring "server.js" cmd.
Proof.
  unfold Manage.cmdline_has_server_js. destruct (cmdline info) as [[| c cmds] |].
  - split; [discriminate | intros [cmds [cmd [Hc [Hin _]]]]].
    inversion Hc; subst cmds. destruct Hin.
  - rewrite existsb_exists. split.
    + intros [cmd [Hin Hsub]]. exists (c :: cmds), cmd.
      rewrite <- contains_spec. auto.
    + intros [cmds' [cmd [Hc [Hin Hsub]]]]. inversion Hc; subst cmds'.
      exists cmd. rewrite contains_spec. auto.
  - split; [discriminate | intros [cmds [cmd [Hc _]]]; discriminate].
Qed.

Lemma matching_pid_spec (proc : Process) (p : Z) :
  Spec.matching_pid proc = Some p <-> Spec.server_process proc p.
Proof.
  unfold Spec.server_process. destruct proc as [info | e]; simpl.
  - destruct (Manage.name_is_node info) eqn:Hname;
      [destruct (Manage.cmdline_has_server_js info) eqn:Hcmd |]; simpl.
    + apply name_is_node_spec in Hname as [n [Hn Hsub]].
      apply cmdline_has_server_js_spec in Hcmd as [cmds [cmd [Hc [Hin Hjs]]]].
      split.
      * intros Hp. inversion Hp. exists info, n, cmds, cmd. auto 10.
      * intros [info' [_ [_ [_ [Hv [Hp _]]]]]]. inversion Hv; subst info'.
        now rewrite Hp.
    + split; [discriminate |].
      intros [info' [n [cmds [cmd [Hv [_ [_ [_ [Hc [Hin Hjs]]]]]]]]]].
      inversion Hv; subst info'.
      assert (Manage.cmdline_has_server_js info = true) as Habs
        by (apply cmdline_has_server_js_spec; eauto).
      congruence.
    + split; [discriminate |].
      intros [info' [n [cmds [cmd [Hv [_ [Hn [Hsub _]]]]]]]].
      inversion Hv; subst info'.
      assert (Manage.name_is_node info = true) as Habs
        by (apply name_is_node_spec; eauto).
      congruence.
  - split; [discriminate |].
    intros [info [_ [_ [_ [Hv _]]]]]. discriminate.
Qed.

Lemma matching_pids_In (table : list Process) (p : Z) :
  In p (omap Spec.matching_pid table) <->
  exists proc, In proc table /\ Spec.server_process proc p.
Proof.
  rewrite <- list_elem_of_In, list_elem_of_omap.
  split; intros [proc [Hin Hm]]; exists proc.
  - rewrite <- list_elem_of_In, <- matching_pid_spec. auto.
  - rewrite list_elem_of_In, matching_pid_spec. auto.
Qed.

Lemma matching_pids_visible (table : list Process) :
  omap Spec.matching_pid (List.filter Spec.is_visible table) =
  omap Spec.matching_pid table.
Proof.
  induction table as [| [info | e] table IH]; simpl.
  - reflexivity.
  - unfold omap in *. simpl. rewrite IH. reflexivity.
  - exact IH.
Qed.

End Matching.

(** C4 — [is_server_running] makes exactly one call, the HTTP GET to
    [http://localhost:3000/api/load-files] with a timeout of 2 seconds; it
    never raises; it returns true if and only if that call gave a response
    with status code 200, whatever the body; and when the call raised (a
    refused connection, a timeout, any exception) it returns false. *)
Theorem is_server_running_spec {S : Type} (h : Handler S) (s : S) :
  let answer := (h _ (RequestsGet "http://localhost:3000/api/load-files" 2) s).1 in
  let r := run h Manage.is_server_running s in
  trace r = [ACall (RequestsGet "http://localhost:3000/api/load-files" 2) answer] /\
  (exists running : bool, result r = inr running) /\
  (result r = inr true <->
   exists response, answer = inr response /\ status_code response = 200%Z) /\
  (forall content, answer = inr (mkResponse 200 content) -> result r = inr true) /\
  (forall e, answer = inl e -> result r = inr false).
Proof.
  intros answer r. subst r. rewrite run_is_server_running.
  change (h _ (RequestsGet Manage.SERVER_URL 2) s).1 with answer.
  cbn [result trace]. repeat split.
  - eexists; reflexivity.
  - intros Hr. destruct answer as [e | response]; simpl in Hr; [discriminate |].
    exists response. split; [reflexivity |]. apply Z.eqb_eq. congruence.
  - intros [response [-> Hcode]]. simpl. rewrite Hcode. reflexivity.
  - intros content ->. reflexivity.
  - intros e ->. reflexivity.
Qed.

(** C5 — [find_node_processes] returns a list whose members are exactly
    the identifiers of the processes of the table whose name contains
    "node", the case of the letters being ignored, and one of whose command
    line arguments contains "server.js"; the list is empty exactly when no
    process of the table is such a process.  Nothing is said about the
    order. *)
Theorem find_node_processes_spec {S : Type} (h : Handler S) (s : S) :
  let table := (h _ (ProcessIter ["pid"; "name"; "cmdline"]) s).1 in
  exists pids : list Z,
    result (run h Manage.find_node_processes s) = inr pids /\
    (forall p, In p pids <->
               exists proc, In proc table /\ Spec.server_process proc p) /\
    (pids = [] <->
     forall proc p, In proc table -> ~ Spec.server_process proc p).
Proof.
  intros table. rewrite run_find_node_processes. fold table.
  exists (omap Spec.matching_pid table). cbn [result].
  split; [reflexivity |]. split; [apply matching_pids_In |].
  split.
  - intros Hnil proc p Hin Hsp.
    assert (In p (omap Spec.matching_pid table)) as Hp
      by (apply matching_pids_In; eauto).
    rewrite Hnil in Hp. destruct Hp.
  - intros Hnone. destruct (omap Spec.matching_pid table) as [| p pids] eqn:Hp;
      [reflexivity |].
    assert (In p (omap Spec.matching_pid table)) as Hin
      by (rewrite Hp; left; reflexivity).
    apply matching_pids_In in Hin as [proc [Hin Hsp]].
    destruct (Hnone proc p Hin Hsp).
Qed.

(** C10 — [find_node_processes] always returns a list, whatever the
    process table holds, and prints nothing; in the loop, a process whose
    attributes cannot be read because it has gone or denies access is
    skipped: the scan gives what it gives on the table without it, and so
    what it gives on the table without all such processes. *)
Theorem find_node_processes_total {S : Type} (h : Handler S) (s : S) :
  (exists pids : list Z, result (run h Manage.find_node_processes s) = inr pids) /\
  Obs.outputs (trace (run h Manage.find_node_processes s)) = [] /\
  (forall (before after : list Process) (e : psutil_error),
     run h (for_fold (before ++ Faulty e :: after) [] Manage.scan_process) s =
     run h (for_fold (before ++ after) [] Manage.scan_process) s) /\
  (forall table : list Process,
     (exists pids : list Z,
        result (run h (for_fold table [] Manage.scan_process) s) = inr pids) /\
     run h (for_fold table [] Manage.scan_process) s =
     run h (for_fold (List.filter Spec.is_visible table) [] Manage.scan_process) s).
Proof.
  rewrite run_find_node_processes. cbn [result trace].
  split; [eexists; reflexivity |]. split; [reflexivity |]. split.
  - intros before after e. rewrite !run_scan, !omap_app. reflexivity.
  - intros table. rewrite !run_scan, matching_pids_visible.
    split; [eexists |]; reflexivity.
Qed.

(** ** Programs that stay silent for an observation *)

Section Silence.

Context {S : Type} (h : Handler S) {B : Type} (f : Action -> option B).

Lemma omap_cons_None (a : Action) (tr : list Action) :
  f a = None -> omap f (a :: tr) = omap f tr.
Proof. intros Hf. change (omap f (a :: tr)) with
    (match f a with Some b => b :: omap f tr | None => omap f tr end).
  rewrite Hf. reflexivity.
Qed.

Lemma silent_sound {A : Type} (p : Prog A) (s : S) :
  Spec.silent f p -> omap f (trace (run h p s)) = [].
Proof.
  revert s. induction p as [a | e | m k IH | X e k IH]; intros s Hp;
    cbn [run trace Spec.silent] in *.
  - reflexivity.
  - reflexivity.
  - destruct Hp as [Hm Hk]. rewrite omap_cons_None by exact Hm. apply IH, Hk.
  - destruct (Hp (h X e s).1) as [He Hk].
    rewrite omap_cons_None by exact He. apply IH, Hk.
Qed.

Lemma silent_filter {A : Type} (p : Prog A) (s : S) :
  Spec.silent f p ->
  List.filter (fun a => match f a with Some _ => false | None => true end)
    (trace (run h p s)) = trace (run h p s).
Proof.
  revert s. induction p as [a | e | m k IH | X e k IH]; intros s Hp; simpl in *.
  - reflexivity.
  - reflexivity.
  - destruct Hp as [Hm Hk]. rewrite Hm, IH by exact Hk. reflexivity.
  - destruct (Hp (h X e s).1) as [He Hk]. rewrite He, IH by exact Hk.
    reflexivity.
Qed.

Lemma silent_bind {A C : Type} (p : Prog A) (k : A -> Prog C) :
  Spec.silent f p -> (forall a, Spec.silent f (k a)) -> Spec.silent f (p ≫= k).
Proof.
  unfold mbind, Prog_bind.
  induction p as [a | e | m p IH | X e p IH]; intros Hp Hk; simpl in *.
  - apply Hk.
  - exact I.
  - destruct Hp as [Hm Hp]. split; [exact Hm | apply IH; assumption].
  - intros x. destruct (Hp x) as [He Hpx].
    split; [exact He | apply IH; assumption].
Qed.

Lemma silent_pcatch {A : Type} (p : Prog A) (handler : Exn -> Prog A) :
  Spec.silent f p -> (forall e, Spec.silent f (handler e)) ->
  Spec.silent f (pcatch p handler).
Proof.
  induction p as [a | e | m p IH | X e p IH]; intros Hp Hk; simpl in *.
  - exact I.
  - apply Hk.
  - destruct Hp as [Hm Hp]. split; [exact Hm | apply IH; assumption].
  - intros x. destruct (Hp x) as [He Hpx].
    split; [exact He | apply IH; assumption].
Qed.

Lemma silent_print (m : Msg) : f (AOut m) = None -> Spec.silent f (print m).
Proof. intros Hm. split; [exact Hm | exact I]. Qed.

Lemma silent_trigger {X : Type} (e : Event X) :
  (forall x, f (ACall e x) = None) -> Spec.silent f (trigger e).
Proof. intros He x. split; [apply He | exact I]. Qed.

Lemma silent_raising {X : Type} (e : Event (Exn + X)) :
  (forall x, f (ACall e x) = None) -> Spec.silent f (raising e).
Proof. intros He x. split; [apply He | destruct x; exact I]. Qed.

Lemma silent_raising_unit (e : Event (option Exn)) :
  (forall x, f (ACall e x) = None) -> Spec.silent f (raising_unit e).
Proof. intros He x. split; [apply He | destruct x; exact I]. Qed.

Lemma silent_mret {A : Type} (a : A) : Spec.silent f (mret a).
Proof. exact I. Qed.

Lemma silent_raise {A : Type} (e : Exn) : Spec.silent f (@Raise A e).
Proof. exact I. Qed.

Lemma silent_for_each {X : Type} (xs : list X) (body : X -> Prog unit) :
  (forall x, Spec.silent f (body x)) -> Spec.silent f (for_each xs body).
Proof.
  intros Hbody. induction xs as [| x xs IH]; [exact I |].
  cbn [for_each]. apply silent_bind; [apply Hbody | intros _; exact IH].
Qed.

Lemma silent_for_fold {X Acc : Type} (xs : list X) (acc : Acc)
    (body : Acc -> X -> Prog Acc) :
  (forall acc' x, Spec.silent f (body acc' x)) ->
  Spec.silent f (for_fold xs acc body).
Proof.
  intros Hbody. revert acc. induction xs as [| x xs IH]; intros acc; [exact I |].
  cbn [for_fold]. apply silent_bind; [apply Hbody | intros acc'; apply IH].
Qed.

End Silence.

(** One step of a silence proof, following the structure of the program. *)
Ltac silent_step :=
  first
    [ apply silent_mret
    | apply silent_raise
    | apply silent_print; reflexivity
    | apply silent_trigger; intros; reflexivity
    | apply silent_raising; intros; reflexivity
    | apply silent_raising_unit; intros; reflexivity
    | apply silent_bind; [| intros]
    | apply silent_pcatch; [| intros]
    | apply silent_for_each; intros
    | apply silent_for_fold; intros
    | match goal with
      | |- Spec.silent _ (if ?b then _ else _) => destruct b
      | |- Spec.silent _ (match ?x with _ => _ end) => destruct x
      end ].

Ltac silent_auto := repeat silent_step.

(** ** [start_server] *)

Section Start.

Context {S : Type} (h : Handler S).

Lemma run_print1 (m : Msg) (s : S) :
  run h (print m) s = mkRun (inr tt) s [AOut m].
Proof. reflexivity. Qed.

Lemma run_raising_unit_ok {B : Type} (e : Event (option Exn))
    (f : unit -> Prog B) (s : S) :
  (h _ e s).1 = None ->
  run h (raising_unit e ≫= f) s =
  mkRun (result (run h (f tt) (h _ e s).2)) (final (run h (f tt) (h _ e s).2))
        (ACall e None :: trace (run h (f tt) (h _ e s).2)).
Proof.
  intros Hok. unfold raising_unit, trigger, mbind, Prog_bind.
  cbn [pbind run]. rewrite Hok. reflexivity.
Qed.

Lemma run_report_started (has_valid_env : bool) (s : S) :
  run h (Manage.report_started has_valid_env) s =
  mkRun (inr tt) s (map AOut (Spec.started_lines has_valid_env)).
Proof. destruct has_valid_env; reflexivity. Qed.

(** The polling loop: some polls that miss, then either a poll that
    hits, within the rounds allowed, or the failure report once the
    rounds are used up. *)
Lemma run_wait_until_ready (has_valid_env : bool) (rounds : nat) (s : S) :
  result (run h (Manage.wait_until_ready has_valid_env rounds) s) = inr tt /\
  exists misses : list (Exn + Response),
    Forall (fun answer => Spec.answered_ok answer = false) misses /\
    ((exists hit,
        Spec.answered_ok hit = true /\ length misses < rounds /\
        trace (run h (Manage.wait_until_ready has_valid_env rounds) s) =
        Spec.polls (misses ++ [hit]) ++
        map AOut (Spec.started_lines has_valid_env)) \/
     (length misses = rounds /\
      trace (run h (Manage.wait_until_ready has_valid_env rounds) s) =
      Spec.polls misses ++ [AOut MsgFailedToStart])).
Proof.
  revert s. induction rounds as [| rounds IH]; intros s.
  - split; [reflexivity |]. exists []. split; [constructor |].
    right. split; reflexivity.
  - cbn [Manage.wait_until_ready].
    rewrite run_trigger, run_bind, run_is_server_running.
    unfold then_run. cbn [result final trace].
    set (s1 := (h _ (Sleep 1) s).2).
    replace (h _ (Sleep 1) s).1 with tt by (destruct (h _ (Sleep 1) s).1; reflexivity).
    set (answer := (h _ (RequestsGet Manage.SERVER_URL 2) s1).1).
    set (s2 := (h _ (RequestsGet Manage.SERVER_URL 2) s1).2).
    destruct (Spec.answered_ok answer) eqn:Hok.
    + rewrite run_report_started. cbn [result final trace].
      split; [reflexivity |]. exists []. split; [constructor |].
      left. exists answer. split; [exact Hok |]. split; [simpl; lia |].
      reflexivity.
    + destruct (IH s2) as [Hres [misses [Hmiss Hcases]]].
      split; [exact Hres |]. exists (answer :: misses).
      split; [constructor; assumption |].
      destruct Hcases as [[hit [Hhit [Hlen Htr]]] | [Hlen Htr]].
      * left. exists hit. split; [exact Hhit |]. split; [simpl; lia |].
        rewrite Htr. reflexivity.
      * right. split; [simpl; lia |]. rewrite Htr. reflexivity.
Qed.

Lemma spawns_polls (answers : list (Exn + Response)) :
  Obs.spawns (Spec.polls answers) = [].
Proof. induction answers as [| a answers IH]; [reflexivity | exact IH]. Qed.

Lemma spawns_outputs (lines : list Msg) : Obs.spawns (map AOut lines) = [].
Proof. induction lines as [| m lines IH]; [reflexivity | exact IH]. Qed.

Lemma spawns_is_server_running (s : S) :
  Obs.spawns (trace (run h Manage.is_server_running s)) = [].
Proof.
  apply silent_sound. unfold Manage.is_server_running. silent_auto.
Qed.

Lemma spawns_check_node_installed (s : S) :
  Obs.spawns (trace (run h Manage.check_node_installed s)) = [].
Proof.
  apply silent_sound.
  unfold Manage.check_node_installed, try_except, Manage.subprocess_run.
  silent_auto.
Qed.

Lemma spawns_check_dependencies (s : S) :
  Obs.spawns (trace (run h Manage.check_dependencies s)) = [].
Proof.
  apply silent_sound.
  unfold Manage.check_dependencies, Manage.subprocess_run. silent_auto.
Qed.

Lemma spawns_check_env_file (s : S) :
  Obs.spawns (trace (run h Manage.check_env_file s)) = [].
Proof.
  apply silent_sound. unfold Manage.check_env_file. silent_auto.
Qed.

End Start.

(** C1 — when [is_server_running] returns true, [start_server] prints its
    notice and does nothing else: its only call into the environment is
    that one probe, so it launches no process, runs none of the
    prerequisite checks ([node --version], [npm install], the [.env] file),
    does not sleep or poll, requests no termination, and leaves the
    environment as the probe left it. *)
Theorem start_server_already_running {S : Type} (h : Handler S) (s : S)
    (platform : string) :
  result (run h Manage.is_server_running s) = inr true ->
  let probe := run h Manage.is_server_running s in
  let r := run h (Manage.start_server platform) s in
  result r = inr tt /\
  final r = final probe /\
  trace r =
    AOut MsgStarting :: trace probe ++ [AOut MsgAlreadyRunning; AOut MsgAccessItAt] /\
  Obs.calls (trace r) = trace probe /\
  Obs.probes (trace r) = [("http://localhost:3000/api/load-files", 2%Z)] /\
  Obs.spawns (trace r) = [] /\
  Obs.subprocesses (trace r) = [] /\
  Obs.file_writes (trace r) = [] /\
  Obs.sleeps (trace r) = [] /\
  Obs.signals (trace r) = [].
Proof.
  intros Hlive probe r. subst r.
  unfold Manage.start_server.
  rewrite run_print, (run_bind_ok h _ _ _ _ Hlive). fold probe.
  cbv iota. rewrite run_print, run_print1. cbn [result final trace].
  subst probe. rewrite run_is_server_running. cbn [result final trace app].
  repeat split; reflexivity.
Qed.

Lemma start_server_already_running_witness :
  result (run SimOS.os Manage.is_server_running SimOS.live) = inr true /\
  Obs.spawns (trace (run SimOS.os (Manage.start_server "linux") SimOS.live)) = [] /\
  SimOS.procs (final (run SimOS.os (Manage.start_server "linux") SimOS.live)) =
  SimOS.procs SimOS.live.
Proof.
  split; [vm_compute; reflexivity |].
  split; [| vm_compute; reflexivity].
  apply (start_server_already_running SimOS.os SimOS.live "linux").
  vm_compute; reflexivity.
Defined.

(** C2, as amended — when [is_server_running] returns false and the
    prerequisites pass ([check_node_installed] returns true,
    [check_dependencies] and [check_env_file] return, and the launch call
    itself is not refused), [start_server] launches the server exactly
    once and then polls: each poll sleeps one second and probes once; the
    polls that miss are followed either by a poll that hits, the hit being
    at the latest the 10th poll, after which the start is reported, or,
    after 10 misses, by the failure report.  The launch is never
    repeated. *)
Theorem start_server_launch_and_poll {S : Type} (h : Handler S) (s : S)
    (platform : string) (has_valid_env : bool) :
  let probe := run h Manage.is_server_running s in
  let node := run h Manage.check_node_installed (final probe) in
  let deps := run h Manage.check_dependencies (final node) in
  let env := run h Manage.check_env_file (final deps) in
  let launch := Popen (Manage.launch_args platform) in
  result probe = inr false ->
  result node = inr true ->
  result deps = inr tt ->
  result env = inr has_valid_env ->
  (h _ launch (final env)).1 = None ->
  let r := run h (Manage.start_server platform) s in
  let before_polls :=
    AOut MsgStarting :: trace probe ++ trace node ++ trace deps ++ trace env ++
    [ACall launch None; AOut MsgWaiting] in
  result r = inr tt /\
  Obs.spawns (trace r) = [Manage.launch_args platform] /\
  exists misses : list (Exn + Response),
    Forall (fun answer => Spec.answered_ok answer = false) misses /\
    ((exists hit,
        Spec.answered_ok hit = true /\ length misses < 10 /\
        trace r =
        before_polls ++ Spec.polls (misses ++ [hit]) ++
        map AOut (Spec.started_lines has_valid_env)) \/
     (length misses = 10 /\
      trace r = before_polls ++ Spec.polls misses ++ [AOut MsgFailedToStart])).
Proof.
  intros probe node deps env launch Hprobe Hnode Hdeps Henv Hlaunch r before_polls.
  assert (Hrun : result r = inr tt /\
                 trace r = before_polls ++
                   trace (run h (Manage.wait_until_ready has_valid_env 10)
                            (h _ launch (final env)).2)).
  { subst r before_polls. unfold Manage.start_server.
    rewrite run_print, (run_bind_ok h _ _ _ _ Hprobe). fold probe. cbv iota.
    rewrite (run_bind_ok h _ _ _ _ Hnode). fold node. cbn [negb]. cbv iota.
    rewrite (run_bind_ok h _ _ _ _ Hdeps). fold deps.
    rewrite (run_bind_ok h _ _ _ _ Henv). fold env.
    rewrite (run_raising_unit_ok h _ _ _ Hlaunch), run_print.
    cbn [result final trace].
    split; [apply run_wait_until_ready |].
    cbn [app]. rewrite <- !app_assoc. reflexivity. }
  destruct Hrun as [Hres Htr].
  destruct (run_wait_until_ready h has_valid_env 10 (h _ launch (final env)).2)
    as [_ [misses [Hmiss Hcases]]].
  split; [exact Hres |].
  assert (Hbefore : Obs.spawns before_polls = [Manage.launch_args platform]).
  { subst before_polls. unfold Obs.spawns.
    change (omap Obs.spawn_of (AOut MsgStarting :: ?l)) with (omap Obs.spawn_of l).
    rewrite !omap_app.
    fold (Obs.spawns (trace probe)) (Obs.spawns (trace node))
         (Obs.spawns (trace deps)) (Obs.spawns (trace env)).
    subst probe node deps env.
    rewrite spawns_is_server_running, spawns_check_node_installed,
      spawns_check_dependencies, spawns_check_env_file.
    reflexivity. }
  split.
  - rewrite Htr. unfold Obs.spawns in *. rewrite omap_app, Hbefore.
    destruct Hcases as [[hit [_ [_ Hw]]] | [_ Hw]]; rewrite Hw, omap_app.
    + change (omap Obs.spawn_of (Spec.polls (misses ++ [hit])))
        with (Obs.spawns (Spec.polls (misses ++ [hit]))).
      change (omap Obs.spawn_of (map AOut ?l)) with (Obs.spawns (map AOut l)).
      rewrite spawns_polls, spawns_outputs. reflexivity.
    + change (omap Obs.spawn_of (Spec.polls misses))
        with (Obs.spawns (Spec.polls misses)).
      rewrite spawns_polls. reflexivity.
  - exists misses. split; [exact Hmiss |].
    destruct Hcases as [[hit [Hhit [Hlen Hw]]] | [Hlen Hw]].
    + left. exists hit. split; [exact Hhit |]. split; [exact Hlen |].
      rewrite Htr, Hw. reflexivity.
    + right. split; [exact Hlen |]. rewrite Htr, Hw. reflexivity.
Qed.

Lemma start_server_launch_and_poll_witness :
  Obs.spawns (trace (run SimOS.os (Manage.start_server "linux") SimOS.idle)) =
  [PopenDevnull ["npm"; "start"]].
Proof.
  apply (start_server_launch_and_poll SimOS.os SimOS.idle "linux" true);
    vm_compute; reflexivity.
Defined.

(** C2 as stated fails: on a machine without Node.js the server is not
    running, and [start_server] returns after the failed prerequisite
    without launching or polling. *)
Lemma start_server_without_node_no_launch :
  result (run SimOS.os Manage.is_server_running SimOS.bare) = inr false /\
  Obs.spawns (trace (run SimOS.os (Manage.start_server "linux") SimOS.bare)) = [] /\
  Obs.sleeps (trace (run SimOS.os (Manage.start_server "linux") SimOS.bare)) = [] /\
  Obs.probes (trace (run SimOS.os (Manage.start_server "linux") SimOS.bare)) =
  [(Manage.SERVER_URL, 2%Z)].
Proof. vm_compute. repeat split. Qed.

(** ** [stop_server], [check_status] and [restart_server] *)

Section Stop.

Context {S : Type} (h : Handler S).

Lemma run_terminate_process (p : Z) (s : S) :
  run h (Manage.terminate_process p) s =
  mkRun (inr tt) (h _ (Terminate p) s).2
        (Spec.termination p (h _ (Terminate p) s).1).
Proof.
  unfold Manage.terminate_process. rewrite run_trigger.
  destruct ((h _ (Terminate p) s).1); reflexivity.
Qed.

Lemma run_terminate_all (pids : list Z) (s : S) :
  exists refusals : list (option psutil_error),
    length refusals = length pids /\
    result (run h (for_each pids Manage.terminate_process) s) = inr tt /\
    trace (run h (for_each pids Manage.terminate_process) s) =
    Spec.terminations pids refusals.
Proof.
  revert s. induction pids as [| p pids IH]; intros s.
  - exists []. repeat split.
  - cbn [for_each]. rewrite run_bind, run_terminate_process.
    unfold then_run. cbn [result final trace].
    destruct (IH (h _ (Terminate p) s).2) as [refusals [Hlen [Hres Htr]]].
    exists ((h _ (Terminate p) s).1 :: refusals).
    split; [simpl; lia |]. split; [exact Hres |].
    rewrite Htr. reflexivity.
Qed.

Lemma signals_terminations (pids : list Z) (refusals : list (option psutil_error)) :
  length refusals = length pids ->
  Obs.signals (Spec.terminations pids refusals) = pids.
Proof.
  revert refusals. induction pids as [| p pids IH]; intros [| o refusals] Hlen;
    try discriminate; [reflexivity |].
  simpl in Hlen. cbn [Spec.terminations Spec.termination app].
  unfold Obs.signals in *. cbn. f_equal. apply IH. lia.
Qed.

Lemma sleeps_terminations (pids : list Z) (refusals : list (option psutil_error)) :
  Obs.sleeps (Spec.terminations pids refusals) = [].
Proof.
  revert refusals. induction pids as [| p pids IH]; intros [| o refusals];
    try reflexivity. apply IH.
Qed.

Lemma probes_terminations (pids : list Z) (refusals : list (option psutil_error)) :
  Obs.probes (Spec.terminations pids refusals) = [].
Proof.
  revert refusals. induction pids as [| p pids IH]; intros [| o refusals];
    try reflexivity. apply IH.
Qed.

End Stop.

(** C3 — [stop_server] scans the process table once.  When the scan
    finds no server process it reports that there is nothing to stop and
    requests no termination, does not sleep and does not probe.  Otherwise
    it requests the termination of every pid found, in the order found
    (each request is answered by success or by a refusal, which is
    reported and does not end the loop), sleeps one second, probes the
    server exactly once, and reports success or a still-running warning
    from that one probe. *)
Theorem stop_server_spec {S : Type} (h : Handler S) (s : S) :
  let scan := run h Manage.find_node_processes s in
  let r := run h Manage.stop_server s in
  result r = inr tt /\
  exists pids : list Z,
    result scan = inr pids /\
    match pids with
    | [] =>
        trace r = AOut MsgStopping :: trace scan ++ [AOut MsgNoProcesses] /\
        Obs.signals (trace r) = [] /\
        Obs.sleeps (trace r) = [] /\
        Obs.probes (trace r) = []
    | _ :: _ =>
        exists (refusals : list (option psutil_error)) (answer : Exn + Response),
          length refusals = length pids /\
          trace r =
            AOut MsgStopping :: trace scan ++
            Spec.terminations pids refusals ++
            [ACall (Sleep 1) tt;
             ACall (RequestsGet "http://localhost:3000/api/load-files" 2) answer;
             AOut (if Spec.answered_ok answer then MsgMayStillRun else MsgStoppedOk)] /\
          Obs.signals (trace r) = pids /\
          Obs.sleeps (trace r) = [1%Z] /\
          Obs.probes (trace r) = [("http://localhost:3000/api/load-files", 2%Z)]
    end.
Proof.
  intros scan r. subst r scan. unfold Manage.stop_server.
  rewrite run_print, run_bind, run_find_node_processes.
  unfold then_run. cbn [result final trace].
  set (table := (h _ (ProcessIter ["pid"; "name"; "cmdline"]) s).1).
  set (s1 := (h _ (ProcessIter ["pid"; "name"; "cmdline"]) s).2).
  destruct (omap Spec.matching_pid table) as [| p pids] eqn:Hpids.
  - rewrite run_print1. cbn [result final trace].
    split; [reflexivity |]. exists []. repeat split.
  - set (targets := p :: pids).
    rewrite run_bind.
    destruct (run_terminate_all h targets s1) as [refusals [Hlen [Hres Htr]]].
    unfold then_run. rewrite Hres, Htr.
    rewrite run_trigger, run_bind, run_is_server_running.
    unfold then_run. cbn [result final trace].
    set (s2 := final (run h (for_each targets Manage.terminate_process) s1)).
    replace (h _ (Sleep 1) s2).1 with tt by (destruct (h _ (Sleep 1) s2).1; reflexivity).
    set (answer := (h _ (RequestsGet Manage.SERVER_URL 2) (h _ (Sleep 1) s2).2).1).
    assert (Hreport :
      forall s', run h (if negb (Spec.answered_ok answer)
                        then print MsgStoppedOk else print MsgMayStillRun) s' =
                 mkRun (inr tt) s'
                   [AOut (if Spec.answered_ok answer then MsgMayStillRun else MsgStoppedOk)]).
    { intros s'. destruct (Spec.answered_ok answer); reflexivity. }
    rewrite Hreport. cbn [result final trace].
    split; [reflexivity |]. exists targets. split; [reflexivity |].
    exists refusals, answer. split; [exact Hlen |]. split; [reflexivity |].
    unfold Obs.signals, Obs.sleeps, Obs.probes. cbn [app].
    rewrite !(omap_cons_None _ (AOut MsgStopping)) by reflexivity.
    rewrite !(omap_cons_None _ (ACall (ProcessIter _) _)) by reflexivity.
    rewrite !omap_app.
    fold (Obs.signals (Spec.terminations targets refusals))
         (Obs.sleeps (Spec.terminations targets refusals))
         (Obs.probes (Spec.terminations targets refusals)).
    rewrite signals_terminations by exact Hlen.
    rewrite sleeps_terminations, probes_terminations.
    repeat split. apply app_nil_r.
Qed.

(** C7, as amended — [check_status] always probes the server once and
    reports whether it answers.  Only when it answers does it scan the
    process table, and it then prints the identifiers found when there is
    at least one; when the server does not answer it neither scans the
    table nor prints any identifier. *)
Theorem check_status_spec {S : Type} (h : Handler S) (s : S) :
  let probe := run h Manage.is_server_running s in
  let scan := run h Manage.find_node_processes (final probe) in
  let r := run h Manage.check_status s in
  result r = inr tt /\
  exists running : bool,
    result probe = inr running /\
    if running
    then exists pids : list Z,
           result scan = inr pids /\
           trace r =
             AOut MsgChecking :: trace probe ++
             [AOut MsgRunning; AOut MsgAccessAt] ++ trace scan ++
             match pids with
             | [] => []
             | _ :: _ => [AOut (MsgProcessIds pids)]
             end
    else trace r =
           AOut MsgChecking :: trace probe ++
           [AOut MsgNotRunning; AOut MsgStartHint] /\
         Obs.scans (trace r) = [] /\
         Obs.outputs (trace r) = [MsgChecking; MsgNotRunning; MsgStartHint].
Proof.
  intros probe scan r. subst r scan probe. unfold Manage.check_status.
  rewrite run_print, run_bind, !run_is_server_running.
  unfold then_run. cbn [result final trace].
  set (answer := (h _ (RequestsGet Manage.SERVER_URL 2) s).1).
  set (s1 := (h _ (RequestsGet Manage.SERVER_URL 2) s).2).
  rewrite run_find_node_processes. cbn [result final trace].
  set (table := (h _ (ProcessIter ["pid"; "name"; "cmdline"]) s1).1).
  destruct (Spec.answered_ok answer).
  - rewrite !run_print, run_bind, run_find_node_processes.
    unfold then_run. cbn [result final trace]. fold table.
    destruct (omap Spec.matching_pid table) as [| p pids] eqn:Hpids.
    + split; [reflexivity |]. exists true. split; [reflexivity |].
      exists []. repeat split.
    + rewrite run_print1. cbn [result final trace].
      split; [reflexivity |]. exists true. split; [reflexivity |].
      exists (p :: pids). repeat split.
  - rewrite run_print, run_print1. cbn [result final trace].
    split; [reflexivity |]. exists false. repeat split.
Qed.

(** C7 as stated fails: with the server process 4242 alive but not
    answering on its port, [find_node_processes] finds it, yet the report
    of [check_status] holds no identifier and the table is not scanned. *)
Lemma check_status_hung_reports_no_pids :
  let r := run SimOS.os Manage.check_status SimOS.hung in
  result (run SimOS.os Manage.find_node_processes SimOS.hung) = inr [4242%Z] /\
  Obs.outputs (trace r) = [MsgChecking; MsgNotRunning; MsgStartHint] /\
  Obs.scans (trace r) = [] /\
  ~ In (MsgProcessIds [4242%Z]) (Obs.outputs (trace r)).
Proof.
  vm_compute. repeat split. intros [H | [H | [H | []]]]; discriminate.
Qed.

Section Restart.

Context {S : Type} (h : Handler S).

Lemma silent_restart_line_stop_server :
  Spec.silent Spec.restart_line Manage.stop_server.
Proof.
  unfold Manage.stop_server, Manage.find_node_processes, Manage.scan_process,
    Manage.proc_info, Manage.terminate_process, Manage.is_server_running,
    try_except.
  silent_auto.
Qed.

Lemma silent_restart_line_wait (has_valid_env : bool) (rounds : nat) :
  Spec.silent Spec.restart_line (Manage.wait_until_ready has_valid_env rounds).
Proof.
  induction rounds as [| rounds IH]; cbn [Manage.wait_until_ready].
  - silent_auto.
  - unfold Manage.is_server_running, Manage.report_started. silent_auto.
    exact IH.
Qed.

Lemma silent_restart_line_start_server (platform : string) :
  Spec.silent Spec.restart_line (Manage.start_server platform).
Proof.
  unfold Manage.start_server, Manage.is_server_running,
    Manage.check_node_installed, Manage.check_dependencies,
    Manage.check_env_file, Manage.subprocess_run, try_except.
  silent_auto; apply silent_restart_line_wait.
Qed.

Lemma calls_without_restart_lines (tr : list Action) :
  Obs.calls (Spec.without_restart_lines tr) = Obs.calls tr.
Proof.
  induction tr as [| [m | X e x] tr IH]; [reflexivity | |].
  - destruct m; exact IH.
  - unfold Obs.calls, Spec.without_restart_lines in *. cbn. now rewrite IH.
Qed.

End Restart.

(** Once the two lines [restart_server] prints itself are taken out of its
    trace, what is left is the trace of [stop_server], a sleep of two
    seconds and [start_server] in sequence, with the same result, the same
    final environment and the same calls. *)
Lemma restart_server_refines {S : Type} (h : Handler S) (s : S)
    (platform : string) :
  let r := run h (Manage.restart_server platform) s in
  let r' := run h (Spec.restart_spec platform) s in
  result r = result r' /\
  final r = final r' /\
  Obs.calls (trace r) = Obs.calls (trace r') /\
  Spec.without_restart_lines (trace r) = trace r'.
Proof.
  intros r r'.
  assert (Hmain : result r = result r' /\ final r = final r' /\
                  Spec.without_restart_lines (trace r) = trace r').
  { subst r r'. unfold Manage.restart_server, Spec.restart_spec.
    rewrite run_print, !(run_bind h Manage.stop_server). unfold then_run.
    pose proof (silent_filter h Spec.restart_line Manage.stop_server s
                  silent_restart_line_stop_server) as Hstop.
    fold (Spec.without_restart_lines (trace (run h Manage.stop_server s))) in Hstop.
    destruct (result (run h Manage.stop_server s)) as [e | []];
      cbn [result final trace].
    - repeat split. exact Hstop.
    - rewrite !run_trigger, run_print. cbn [result final trace].
      repeat split.
      unfold Spec.without_restart_lines in *.
      cbn [List.filter Spec.restart_line]. rewrite List.filter_app, Hstop.
      cbn [List.filter Spec.restart_line].
      rewrite (silent_filter h Spec.restart_line _ _
                 (silent_restart_line_start_server platform)).
      reflexivity. }
  destruct Hmain as [Hres [Hfin Htr]].
  repeat split; try assumption.
  rewrite <- Htr. apply eq_sym, calls_without_restart_lines.
Qed.

(** ** The command line *)

Section Dispatch.

Lemma commands_lookup (platform command : string) :
  match Manage.commands platform !! command with
  | Some operation => operation
  | None => print (MsgUnknownCommand command) ;; Manage.show_help
  end = Spec.dispatch platform command.
Proof.
  unfold Manage.commands, Spec.dispatch.
  repeat match goal with
  | |- context [decide (command = ?word)] =>
      destruct (decide (command = word)) as [-> | ?];
      [ repeat (rewrite lookup_insert_ne by discriminate);
        rewrite lookup_insert_eq; reflexivity
      | rewrite lookup_insert_ne by congruence ]
  end.
  rewrite lookup_empty. reflexivity.
Qed.

Lemma main_dispatches (platform : string) (argv : list string) :
  Manage.main platform argv =
  (Manage.print_header ;;
   match argv with
   | _ :: first :: _ => Spec.dispatch platform (PyStr.lower first)
   | _ => Manage.show_help
   end).
Proof.
  unfold Manage.main. destruct argv as [| script [| first rest]];
    [reflexivity | reflexivity |].
  cbn [length Nat.ltb Nat.leb nth]. cbv zeta.
  rewrite commands_lookup. reflexivity.
Qed.

End Dispatch.

(** C9, as amended — [main] prints the header and then looks at the first
    argument with its letters lower-cased: "start", "stop", "restart",
    "status" and "help" run their operation, so that the subcommands are
    recognised whatever the case of their letters; any other word prints
    the unknown-command line followed by the help text; without an
    argument the help text alone is shown.  Further arguments are
    ignored. *)
Theorem main_dispatch (platform : string) (argv : list string) :
  Manage.main platform argv =
  (Manage.print_header ;;
   match argv with
   | _ :: first :: _ =>
       let command := PyStr.lower first in
       if decide (command = "start") then Manage.start_server platform
       else if decide (command = "stop") then Manage.stop_server
       else if decide (command = "restart") then Manage.restart_server platform
       else if decide (command = "status") then Manage.check_status
       else if decide (command = "help") then Manage.show_help
       else print (MsgUnknownCommand command) ;; Manage.show_help
   | _ => Manage.show_help
   end).
Proof. exact (main_dispatches platform argv). Qed.

(** C9 as stated fails: "STOP" is not one of the five subcommands, yet it
    does not fall back to the help text: it runs [stop_server], which
    requests the termination of the server process. *)
Lemma main_uppercase_stop_runs_stop :
  let r := run SimOS.os (Manage.main "linux" ["manage.py"; "STOP"]) SimOS.live in
  ~ In "STOP" ["start"; "stop"; "restart"; "status"; "help"] /\
  Manage.main "linux" ["manage.py"; "STOP"] =
    (Manage.print_header ;; Manage.stop_server) /\
  Obs.signals (trace r) = [4242%Z] /\
  ~ In MsgDoc (Obs.outputs (trace r)).
Proof.
  split; [| split; [| split]].
  - intros [H | [H | [H | [H | [H | []]]]]]; discriminate.
  - rewrite main_dispatches. reflexivity.
  - vm_compute. reflexivity.
  - vm_compute. intros H. repeat (destruct H as [H | H]; [discriminate |]). exact H.
Qed.

(** ** Writes to the configuration file *)

Section Guarded.

Context {S : Type} (h : Handler S).

Lemma guarded_weaken {A : Type} (credit : nat) (p : Prog A) :
  Spec.writes_guarded credit p -> Spec.writes_guarded (Datatypes.S credit) p.
Proof.
  induction 1; try (constructor; auto; fail).
Qed.

Lemma guarded_any {A : Type} (credit : nat) (p : Prog A) :
  Spec.writes_guarded 0 p -> Spec.writes_guarded credit p.
Proof.
  intros Hp. induction credit as [| credit IH]; [exact Hp |].
  apply guarded_weaken, IH.
Qed.

Lemma guarded_bind {A B : Type} (credit : nat) (p : Prog A) (f : A -> Prog B) :
  Spec.writes_guarded credit p ->
  (forall a, Spec.writes_guarded 0 (f a)) ->
  Spec.writes_guarded credit (p ≫= f).
Proof.
  unfold mbind, Prog_bind. intros Hp Hf.
  induction Hp; cbn [pbind]; try (constructor; auto; fail).
  apply guarded_any, Hf.
Qed.

Lemma silent_guarded {A : Type} (p : Prog A) (credit : nat) :
  Spec.silent Obs.write_of p -> Spec.writes_guarded credit p.
Proof.
  revert credit. induction p as [a | e | m k IH | X e k IH]; intros credit Hp.
  - constructor.
  - constructor.
  - constructor. apply IH, Hp.
  - cbn [Spec.silent] in Hp.
    destruct (Spec.plain_event e) eqn:Hplain.
    + apply Spec.wg_plain; [exact Hplain |]. intros x. apply IH, Hp.
    + destruct e; try discriminate.
      * cbn in Hplain. apply negb_false_iff, String.eqb_eq in Hplain. subst path.
        apply Spec.wg_check; apply IH, Hp.
      * destruct (Hp None) as [Hw _]. discriminate.
Qed.

Lemma plain_write_of {X : Type} (e : Event X) (x : X) :
  Spec.plain_event e = true -> Obs.write_of (ACall e x) = None.
Proof. destruct e; try reflexivity. discriminate. Qed.

Lemma plain_absent_of {X : Type} (e : Event X) (x : X) :
  Spec.plain_event e = true -> Obs.absent_of Manage.ENV_PATH (ACall e x) = None.
Proof.
  destruct e; try reflexivity. cbn. intros Hne.
  apply negb_true_iff in Hne. rewrite Hne. destruct x; reflexivity.
Qed.

Lemma guarded_sound {A : Type} (credit : nat) (p : Prog A) (s : S) :
  Spec.writes_guarded credit p ->
  length (Obs.file_writes (trace (run h p s))) <=
    credit + length (Obs.absences Manage.ENV_PATH (trace (run h p s))) /\
  Forall (eq (Manage.ENV_PATH, Manage.template_content))
    (Obs.file_writes (trace (run h p s))).
Proof.
  unfold Obs.file_writes, Obs.absences. intros Hp. revert s.
  induction Hp as [credit a | credit e | credit m k Hk IH
                  | credit X e k Hplain Hk IH
                  | credit k Hyes IHyes Hno IHno
                  | credit k Hk IH]; intros s; cbn [run trace].
  - split; [cbn; lia | constructor].
  - split; [cbn; lia | constructor].
  - rewrite !omap_cons_None by reflexivity. apply IH.
  - rewrite (omap_cons_None Obs.write_of) by (apply plain_write_of, Hplain).
    rewrite (omap_cons_None (Obs.absent_of _)) by (apply plain_absent_of, Hplain).
    apply IH.
  - rewrite (omap_cons_None Obs.write_of) by reflexivity.
    destruct ((h _ (PathExists Manage.ENV_PATH) s).1) eqn:Hans.
    + rewrite (omap_cons_None (Obs.absent_of _)) by reflexivity. apply IHyes.
    + destruct (IHno (h _ (PathExists Manage.ENV_PATH) s).2) as [Hlen Hall].
      split; [| exact Hall].
      change (omap (Obs.absent_of Manage.ENV_PATH)
                (ACall (PathExists Manage.ENV_PATH) false :: ?l))
        with (tt :: omap (Obs.absent_of Manage.ENV_PATH) l).
      cbn [length]. lia.
  - rewrite (omap_cons_None (Obs.absent_of _)) by reflexivity.
    destruct (IH (h _ (WriteFile Manage.ENV_PATH Manage.template_content) s).1
                 (h _ (WriteFile Manage.ENV_PATH Manage.template_content) s).2)
      as [Hlen Hall].
    change (omap Obs.write_of (ACall (WriteFile ?p ?c) ?x :: ?l))
      with ((p, c) :: omap Obs.write_of l).
    split; [cbn [length]; lia | constructor; [reflexivity | exact Hall]].
Qed.

(** An invariant of the environment under which [.env] is found present
    and that only a file write can break holds after a guarded program. *)
Lemma guarded_preserves {A : Type} (Inv : S -> Prop) (p : Prog A) (s : S) :
  (forall s', Inv s' -> (h _ (PathExists Manage.ENV_PATH) s').1 = true) ->
  (forall X (e : Event X) s',
      Obs.write_of (ACall e (h _ e s').1) = None -> Inv s' -> Inv (h _ e s').2) ->
  Spec.writes_guarded 0 p -> Inv s ->
  Inv (final (run h p s)) /\ Obs.file_writes (trace (run h p s)) = [].
Proof.
  intros Hpresent Hframe Hp. unfold Obs.file_writes.
  remember 0 as credit eqn:Hcredit. revert s.
  induction Hp as [credit a | credit e | credit m k Hk IH
                  | credit X e k Hplain Hk IH
                  | credit k Hyes IHyes Hno IHno
                  | credit k Hk IH]; intros s Hs; cbn [run trace final].
  - split; [exact Hs | reflexivity].
  - split; [exact Hs | reflexivity].
  - rewrite omap_cons_None by reflexivity. apply IH; assumption.
  - rewrite omap_cons_None by (apply plain_write_of, Hplain).
    apply IH; [assumption |].
    apply Hframe; [apply plain_write_of, Hplain | exact Hs].
  - rewrite omap_cons_None by reflexivity. rewrite (Hpresent s Hs).
    apply IHyes; [assumption |].
    apply Hframe; [reflexivity | exact Hs].
  - discriminate.
Qed.

End Guarded.

Section GuardedScript.

Lemma guarded_check_env_file (credit : nat) :
  Spec.writes_guarded credit Manage.check_env_file.
Proof.
  unfold Manage.check_env_file. apply Spec.wg_check.
  - apply silent_guarded. silent_auto.
  - cbn [negb]. apply Spec.wg_out, Spec.wg_out, Spec.wg_write.
    intros [e |]; [constructor |].
    apply silent_guarded. silent_auto.
Qed.

Lemma silent_write_wait (has_valid_env : bool) (rounds : nat) :
  Spec.silent Obs.write_of (Manage.wait_until_ready has_valid_env rounds).
Proof.
  induction rounds as [| rounds IH]; cbn [Manage.wait_until_ready].
  - silent_auto.
  - unfold Manage.is_server_running, Manage.report_started. silent_auto.
    exact IH.
Qed.

Lemma silent_write_stop_server : Spec.silent Obs.write_of Manage.stop_server.
Proof.
  unfold Manage.stop_server, Manage.find_node_processes, Manage.scan_process,
    Manage.proc_info, Manage.terminate_process, Manage.is_server_running,
    try_except.
  silent_auto.
Qed.

Lemma silent_write_check_status : Spec.silent Obs.write_of Manage.check_status.
Proof.
  unfold Manage.check_status, Manage.find_node_processes, Manage.scan_process,
    Manage.proc_info, Manage.is_server_running, try_except.
  silent_auto.
Qed.

Lemma silent_write_show_help : Spec.silent Obs.write_of Manage.show_help.
Proof. unfold Manage.show_help. silent_auto. Qed.

Lemma guarded_start_server (platform : string) :
  Spec.writes_guarded 0 (Manage.start_server platform).
Proof.
  unfold Manage.start_server.
  apply guarded_bind; [apply silent_guarded; silent_auto | intros _].
  apply guarded_bind;
    [apply silent_guarded; unfold Manage.is_server_running; silent_auto |].
  intros [|]; [apply silent_guarded; silent_auto |].
  apply guarded_bind;
    [apply silent_guarded;
     unfold Manage.check_node_installed, Manage.subprocess_run, try_except;
     silent_auto |].
  intros [|]; cbn [negb]; [| constructor].
  apply guarded_bind;
    [apply silent_guarded;
     unfold Manage.check_dependencies, Manage.subprocess_run; silent_auto |].
  intros _.
  apply guarded_bind; [apply guarded_check_env_file | intros has_valid_env].
  apply silent_guarded. silent_auto; apply silent_write_wait.
Qed.

Lemma guarded_restart_server (platform : string) :
  Spec.writes_guarded 0 (Manage.restart_server platform).
Proof.
  unfold Manage.restart_server.
  apply guarded_bind; [apply silent_guarded; silent_auto | intros _].
  apply guarded_bind;
    [apply silent_guarded, silent_write_stop_server | intros _].
  apply guarded_bind; [apply silent_guarded; silent_auto | intros _].
  apply guarded_bind; [apply silent_guarded; silent_auto | intros _].
  apply guarded_start_server.
Qed.

Lemma guarded_dispatch (platform command : string) :
  Spec.writes_guarded 0 (Spec.dispatch platform command).
Proof.
  unfold Spec.dispatch.
  repeat match goal with
  | |- context [decide (command = ?word)] => destruct (decide (command = word))
  end.
  - apply guarded_start_server.
  - apply silent_guarded, silent_write_stop_server.
  - apply guarded_restart_server.
  - apply silent_guarded, silent_write_check_status.
  - apply silent_guarded, silent_write_show_help.
  - apply silent_guarded. unfold Manage.show_help. silent_auto.
Qed.

Lemma guarded_main (platform : string) (argv : list string) :
  Spec.writes_guarded 0 (Manage.main platform argv).
Proof.
  rewrite main_dispatches.
  apply guarded_bind;
    [apply silent_guarded; unfold Manage.print_header; silent_auto | intros _].
  destruct argv as [| script [| first rest]];
    try apply silent_guarded, silent_write_show_help.
  apply guarded_dispatch.
Qed.

End GuardedScript.

Section EnvFile.

Context {S : Type} (h : Handler S).

Lemma file_writes_check_env_file (s : S) :
  Obs.file_writes (trace (run h Manage.check_env_file s)) =
  if (h _ (PathExists Manage.ENV_PATH) s).1
  then []
  else [(Manage.ENV_PATH, Manage.template_content)].
Proof.
  unfold Manage.check_env_file, Obs.file_writes. rewrite run_trigger.
  cbn [trace]. rewrite omap_cons_None by reflexivity.
  destruct ((h _ (PathExists Manage.ENV_PATH) s).1); cbn [negb].
  - apply silent_sound. silent_auto.
  - rewrite !run_print. cbn [trace].
    rewrite !omap_cons_None by reflexivity.
    unfold raising_unit, trigger, mbind, Prog_bind. cbn [pbind run trace].
    set (s1 := (h _ (PathExists Manage.ENV_PATH) s).2).
    set (e := WriteFile Manage.ENV_PATH Manage.template_content).
    change (omap Obs.write_of (ACall e ?x :: ?l))
      with ((Manage.ENV_PATH, Manage.template_content) :: omap Obs.write_of l).
    f_equal.
    destruct ((h _ e s1).1); [reflexivity |].
    cbn [pbind]. apply (silent_sound h Obs.write_of). silent_auto.
Qed.

End EnvFile.

Section SimFiles.

Lemma os_env_present (c : string) (w : SimOS.World) :
  SimOS.files w !! Manage.ENV_PATH = Some c ->
  (SimOS.os _ (PathExists Manage.ENV_PATH) w).1 = true.
Proof.
  intros Hc. cbn. rewrite Hc. reflexivity.
Qed.

Lemma os_files_frame (X : Type) (e : Event X) (w : SimOS.World) :
  Obs.write_of (ACall e (SimOS.os _ e w).1) = None ->
  SimOS.files (SimOS.os _ e w).2 = SimOS.files w.
Proof.
  destruct e; intros Hw; try discriminate; cbn.
  - reflexivity.
  - reflexivity.
  - destruct (SimOS.node_version w); [| reflexivity].
    repeat match goal with
    | |- context [match ?x with _ => _ end] => destruct x; try reflexivity
    end.
  - reflexivity.
  - reflexivity.
  - destruct (SimOS.node_version w); [| reflexivity].
    unfold SimOS.launch. destruct (SimOS.boot_time w); reflexivity.
  - unfold SimOS.tick. destruct (SimOS.booting w); [| reflexivity].
    destruct (_ <=? _)%nat; reflexivity.
  - destruct (existsb _ (SimOS.shielded w)); [reflexivity |].
    destruct (existsb _ (SimOS.procs w)); [| reflexivity].
    unfold SimOS.kill. destruct (existsb _ _); reflexivity.
Qed.

(** On the simulated machine an existing [.env] keeps its contents
    through every command. *)
Lemma os_env_file_unchanged (w : SimOS.World) (c platform : string)
    (argv : list string) :
  SimOS.files w !! Manage.ENV_PATH = Some c ->
  SimOS.files (final (run SimOS.os (Manage.main platform argv) w))
    !! Manage.ENV_PATH = Some c.
Proof.
  intros Hc.
  apply (guarded_preserves SimOS.os
           (fun w' => SimOS.files w' !! Manage.ENV_PATH = Some c)).
  - intros w'. apply os_env_present.
  - intros X e w' Hw Hinv. rewrite os_files_frame by exact Hw. exact Hinv.
  - apply guarded_main.
  - exact Hc.
Qed.

(** On the simulated machine a missing [.env] is created with the
    template. *)
Lemma os_env_file_created (w : SimOS.World) :
  SimOS.files w !! Manage.ENV_PATH = None ->
  Manage.ENV_PATH ∉ SimOS.dirs w ->
  SimOS.files (final (run SimOS.os Manage.check_env_file w))
    !! Manage.ENV_PATH = Some Manage.template_content.
Proof.
  intros Hnone Hdir. unfold Manage.check_env_file. rewrite run_trigger.
  cbn [final].
  replace ((SimOS.os _ (PathExists Manage.ENV_PATH) w).1) with false.
  2:{ cbn. rewrite Hnone.
      rewrite (bool_decide_eq_false_2 (is_Some None))
        by (intros [x Hx]; discriminate).
      rewrite bool_decide_eq_false_2 by exact Hdir. reflexivity. }
  cbn [negb SimOS.os snd]. rewrite !run_print. cbn [final].
  rewrite run_raising_unit_ok by reflexivity.
  cbn [final run]. cbn [SimOS.os snd SimOS.with_files SimOS.files].
  apply lookup_insert_eq.
Qed.

End SimFiles.

(** C8 — [check_env_file] writes the file exactly when it finds [.env]
    absent, and what it then writes is the fixed template, to [.env]; when
    it finds the file present it writes nothing.  For every command line:
    every file the script writes is [.env] with the template, and it
    writes at most as often as it has found [.env] absent; and whatever
    holds of an environment in which [.env] is found present, and can only
    be changed by a file write, still holds after the command, which has
    then written no file at all: the contents of an existing [.env] are
    left as they were. *)
Theorem env_file_check {S : Type} (h : Handler S) (s : S) :
  Obs.file_writes (trace (run h Manage.check_env_file s)) =
    (if (h _ (PathExists ".env") s).1
     then []
     else [(".env", Manage.template_content)]) /\
  (forall (platform : string) (argv : list string),
     let tr := trace (run h (Manage.main platform argv) s) in
     Forall (eq (".env", Manage.template_content)) (Obs.file_writes tr) /\
     length (Obs.file_writes tr) <= length (Obs.absences ".env" tr)) /\
  (forall Inv : S -> Prop,
     (forall s', Inv s' -> (h _ (PathExists ".env") s').1 = true) ->
     (forall X (e : Event X) s',
         Obs.write_of (ACall e (h _ e s').1) = None -> Inv s' -> Inv (h _ e s').2) ->
     forall (platform : string) (argv : list string),
       Inv s ->
       Inv (final (run h (Manage.main platform argv) s)) /\
       Obs.file_writes (trace (run h (Manage.main platform argv) s)) = []).
Proof.
  split; [apply file_writes_check_env_file |]. split.
  - intros platform argv tr. subst tr.
    destruct (guarded_sound h 0 (Manage.main platform argv) s
                (guarded_main platform argv)) as [Hlen Hall].
    split; [exact Hall | exact Hlen].
  - intros Inv Hpresent Hframe platform argv Hs.
    apply guarded_preserves; try assumption. apply guarded_main.
Qed.

Lemma env_file_check_witness :
  SimOS.files SimOS.idle !! ".env" = Some "CLAUDE_API_KEY=sk-ant-api03-abc" /\
  SimOS.files (final (run SimOS.os (Manage.main "linux" ["manage.py"; "restart"])
                        SimOS.idle))
    !! ".env" = Some "CLAUDE_API_KEY=sk-ant-api03-abc".
Proof.
  split; [vm_compute; reflexivity |].
  apply (proj2 (proj2 (env_file_check SimOS.os SimOS.idle))
           (fun w => SimOS.files w !! ".env" = Some "CLAUDE_API_KEY=sk-ant-api03-abc")).
  - intros w. apply os_env_present.
  - intros X e w Hw Hinv. rewrite os_files_frame by exact Hw. exact Hinv.
  - vm_compute; reflexivity.
Defined.

(** ** Runs on the simulated machine *)

Section Runs.

Example count_occurrences :
  PyStr.count "pplx-abc and pplx-def" "pplx-" = 2 /\
  PyStr.count "aaaa" "aa" = 2 /\
  PyStr.count "abc" "" = 4.
Proof. repeat split. Qed.

Example strip_version : PyStr.strip (" v20.11.0" +:+ Manage.NL) = "v20.11.0".
Proof. reflexivity. Qed.

Example template_has_placeholders :
  Manage.has_placeholder_keys Manage.template_content = true.
Proof. reflexivity. Qed.

(** Nothing listens on the port: the probe says no; with the server up it
    says yes. *)
Example probe_idle_and_live :
  result (run SimOS.os Manage.is_server_running SimOS.idle) = inr false /\
  result (run SimOS.os Manage.is_server_running SimOS.live) = inr true.
Proof. split; reflexivity. Qed.

Example scan_idle_and_live :
  result (run SimOS.os Manage.find_node_processes SimOS.idle) = inr [] /\
  result (run SimOS.os Manage.find_node_processes SimOS.live) = inr [4242%Z].
Proof. split; vm_compute; reflexivity. Qed.

Example stop_nothing_to_stop :
  Obs.outputs (trace (run SimOS.os Manage.stop_server SimOS.idle)) =
  [MsgStopping; MsgNoProcesses].
Proof. vm_compute; reflexivity. Qed.

(** start, then status, then stop, then status. *)
Example start_status_stop_status :
  let started := run SimOS.os (Manage.main "linux" ["manage.py"; "start"]) SimOS.idle in
  let status1 := run SimOS.os (Manage.main "linux" ["manage.py"; "status"]) (final started) in
  let stopped := run SimOS.os (Manage.main "linux" ["manage.py"; "stop"]) (final status1) in
  let status2 := run SimOS.os (Manage.main "linux" ["manage.py"; "status"]) (final stopped) in
  In MsgStarted (Obs.outputs (trace started)) /\
  In (MsgProcessIds [311%Z]) (Obs.outputs (trace status1)) /\
  Obs.signals (trace stopped) = [311%Z] /\
  In MsgStoppedOk (Obs.outputs (trace stopped)) /\
  In MsgNotRunning (Obs.outputs (trace status2)).
Proof. vm_compute. intuition. Qed.

(** A restart of a live server leaves it live under a new identifier. *)
Example restart_live :
  let r := run SimOS.os (Manage.main "linux" ["manage.py"; "restart"]) SimOS.live in
  Obs.signals (trace r) = [4242%Z] /\
  length (Obs.spawns (trace r)) = 1 /\
  result (run SimOS.os Manage.is_server_running (final r)) = inr true /\
  result (run SimOS.os Manage.find_node_processes (final r)) = inr [311%Z].
Proof. vm_compute. repeat split. Qed.

(** A command that runs to its end gives exit code 0. *)
Example script_exit_code :
  result (run SimOS.os (Manage.script "linux" ["manage.py"; "help"]) SimOS.idle) =
  inr 0%Z.
Proof. vm_compute; reflexivity. Qed.

End Runs.

(** ** The prerequisite checks *)

(** X1 — [check_node_installed] runs [node --version] once and nothing
    else.  It returns true, with the version line, only when the command
    ran with return code 0; a non-zero return code and a missing binary
    ([FileNotFoundError]) both give false with the not-installed line; any
    other exception of the call goes on to the caller. *)
Theorem check_node_installed_spec {S : Type} (h : Handler S) (s : S) :
  let answer := (h _ (SubprocessRun ["node"; "--version"]) s).1 in
  let r := run h Manage.check_node_installed s in
  Obs.calls (trace r) = [ACall (SubprocessRun ["node"; "--version"]) answer] /\
  final r = (h _ (SubprocessRun ["node"; "--version"]) s).2 /\
  match answer with
  | inr completed =>
      if (returncode completed =? 0)%Z
      then result r = inr true /\
           Obs.outputs (trace r) =
           [MsgNodeInstalled (PyStr.strip (stdout completed))]
      else result r = inr false /\ Obs.outputs (trace r) = [MsgNodeMissing]
  | inl FileNotFoundError =>
      result r = inr false /\ Obs.outputs (trace r) = [MsgNodeMissing]
  | inl e => result r = inl e /\ Obs.outputs (trace r) = []
  end.
Proof.
  intros answer r. subst r.
  unfold Manage.check_node_installed, try_except, Manage.subprocess_run,
    raising, trigger, mbind, Prog_bind.
  cbn [pbind pcatch run result final trace andb].
  fold answer.
  destruct answer as [e | completed]; cbn [pbind pcatch run result final trace mret Prog_ret].
  - destruct e; cbn; repeat split.
  - destruct (returncode completed =? 0)%Z; cbn; repeat split.
Qed.

(** X2 — [check_dependencies] runs no command when [node_modules]
    exists.  Otherwise it runs [npm install] exactly once; a non-zero
    return code raises [CalledProcessError] and an exception of the call
    goes on to the caller, in both cases without the line that reports a
    successful installation. *)
Theorem check_dependencies_spec {S : Type} (h : Handler S) (s : S) :
  let present := (h _ (PathExists "node_modules") s).1 in
  let s1 := (h _ (PathExists "node_modules") s).2 in
  let install := (h _ (SubprocessRun ["npm"; "install"]) s1).1 in
  let r := run h Manage.check_dependencies s in
  if present
  then result r = inr tt /\
       Obs.subprocesses (trace r) = [] /\
       Obs.outputs (trace r) = [MsgDepsPresent]
  else Obs.subprocesses (trace r) = [["npm"; "install"]] /\
       match install with
       | inr completed =>
           if (returncode completed =? 0)%Z
           then result r = inr tt /\
                Obs.outputs (trace r) = [MsgDepsInstalling; MsgDepsInstalled]
           else result r = inl (CalledProcessError (returncode completed)) /\
                Obs.outputs (trace r) = [MsgDepsInstalling]
       | inl e =>
           result r = inl e /\ Obs.outputs (trace r) = [MsgDepsInstalling]
       end.
Proof.
  intros present s1 install r. subst r.
  unfold Manage.check_dependencies, Manage.subprocess_run, raising, trigger,
    mbind, Prog_bind.
  cbn [pbind run result final trace]. fold present s1.
  destruct present; cbn [negb pbind print run result final trace].
  - repeat split.
  - fold install.
    destruct install as [e | completed];
      cbn [pbind run result final trace mret Prog_ret andb].
    + repeat split.
    + destruct (returncode completed =? 0)%Z; cbn; repeat split.
Qed.

(** X3 — What [check_env_file] returns.  With [.env] present it writes
    nothing, and returns true exactly when the contents pass the
    placeholder test; with [.env] absent it returns false once the
    template is written.  A failing read or write raises its exception,
    after the lines printed so far. *)
Theorem check_env_file_spec {S : Type} (h : Handler S) (s : S) :
  let present := (h _ (PathExists ".env") s).1 in
  let s1 := (h _ (PathExists ".env") s).2 in
  let r := run h Manage.check_env_file s in
  if present
  then Obs.file_writes (trace r) = [] /\
       match (h _ (ReadFile ".env") s1).1 with
       | inr content =>
           result r = inr (negb (Manage.has_placeholder_keys content)) /\
           Obs.outputs (trace r) =
           if Manage.has_placeholder_keys content
           then [MsgEnvKeysNeedUpdate; MsgEnvFormatClaude; MsgEnvFormatPerplexity]
           else [MsgEnvExists]
       | inl e => result r = inl e /\ Obs.outputs (trace r) = []
       end
  else match (h _ (WriteFile ".env" Manage.template_content) s1).1 with
       | None =>
           result r = inr false /\
           Obs.outputs (trace r) =
           [MsgEnvNotFound; MsgEnvCreating; MsgEnvPleaseUpdate;
            MsgEnvHintClaude; MsgEnvHintPerplexity]
       | Some e =>
           result r = inl e /\
           Obs.outputs (trace r) = [MsgEnvNotFound; MsgEnvCreating]
       end.
Proof.
  intros present s1 r. subst r.
  unfold Manage.check_env_file, raising, raising_unit, trigger, mbind, Prog_bind,
    Manage.ENV_PATH.
  cbn [pbind run result final trace]. fold present s1.
  destruct present; cbn [negb pbind print run result final trace].
  - destruct ((h _ (ReadFile ".env") s1).1) as [e | content];
      cbn [pbind run result final trace mret Prog_ret].
    + cbn. repeat split.
    + destruct (Manage.has_placeholder_keys content); cbn; repeat split.
  - destruct ((h _ (WriteFile ".env" Manage.template_content) s1).1) as [e |];
      cbn [pbind run result final trace mret Prog_ret];
      cbn - [Manage.template_content]; repeat split.
Qed.

(** ** Ways [start_server] ends before the polling *)

Section StartEnds.

Context {S : Type} (h : Handler S).

Lemma run_raising_unit_raise {B : Type} (e : Event (option Exn))
    (f : unit -> Prog B) (s : S) (ex : Exn) :
  (h _ e s).1 = Some ex ->
  run h (raising_unit e ≫= f) s =
  mkRun (inl ex) (h _ e s).2 [ACall e (Some ex)].
Proof.
  intros Hex. unfold raising_unit, trigger, mbind, Prog_bind.
  cbn [pbind run]. rewrite Hex. reflexivity.
Qed.

Lemma run_pcatch_raise {A : Type} (p : Prog A) (handler : Exn -> Prog A)
    (s : S) (e : Exn) :
  result (run h p s) = inl e ->
  run h (pcatch p handler) s =
  mkRun (result (run h (handler e) (final (run h p s))))
        (final (run h (handler e) (final (run h p s))))
        (trace (run h p s) ++ trace (run h (handler e) (final (run h p s)))).
Proof.
  revert s. induction p as [a | e' | m k IH | X e' k IH]; intros s; simpl.
  - discriminate.
  - intros He. inversion He; subst e'. apply eq_sym, run_eta.
  - intros He. rewrite (IH _ He). reflexivity.
  - intros He. rewrite (IH _ _ He). reflexivity.
Qed.

(** The calls of the probe and of the three prerequisite checks. *)
Lemma quiet_is_server_running (s : S) :
  let tr := trace (run h Manage.is_server_running s) in
  Obs.spawns tr = [] /\ Obs.sleeps tr = [] /\ Obs.file_writes tr = [] /\
  Obs.subprocesses tr = [] /\ Obs.signals tr = [] /\
  Obs.probes tr = [(Manage.SERVER_URL, 2%Z)].
Proof. rewrite run_is_server_running. repeat split. Qed.

Lemma quiet_check_node_installed (s : S) :
  let tr := trace (run h Manage.check_node_installed s) in
  Obs.spawns tr = [] /\ Obs.sleeps tr = [] /\ Obs.file_writes tr = [] /\
  Obs.subprocesses tr = [["node"; "--version"]] /\ Obs.signals tr = [] /\
  Obs.probes tr = [].
Proof.
  unfold Manage.check_node_installed, try_except, Manage.subprocess_run,
    raising, trigger, mbind, Prog_bind.
  cbn [pbind pcatch run result final trace andb].
  destruct ((h _ (SubprocessRun ["node"; "--version"]) s).1) as [e | completed];
    cbn [pbind pcatch run result final trace mret Prog_ret].
  - destruct e; cbn; repeat split.
  - destruct (returncode completed =? 0)%Z; cbn; repeat split.
Qed.

Lemma quiet_check_dependencies (s : S) :
  let tr := trace (run h Manage.check_dependencies s) in
  Obs.spawns tr = [] /\ Obs.sleeps tr = [] /\ Obs.file_writes tr = [] /\
  Obs.signals tr = [] /\ Obs.probes tr = [].
Proof.
  unfold Obs.spawns, Obs.sleeps, Obs.file_writes, Obs.signals, Obs.probes.
  repeat split; apply silent_sound;
    unfold Manage.check_dependencies, Manage.subprocess_run; silent_auto.
Qed.

Lemma quiet_check_env_file (s : S) :
  let tr := trace (run h Manage.check_env_file s) in
  Obs.spawns tr = [] /\ Obs.sleeps tr = [] /\
  Obs.signals tr = [] /\ Obs.probes tr = [] /\ Obs.subprocesses tr = [].
Proof.
  unfold Obs.spawns, Obs.sleeps, Obs.subprocesses, Obs.signals, Obs.probes.
  repeat split; apply silent_sound; unfold Manage.check_env_file; silent_auto.
Qed.

End StartEnds.

(** Observations of a trace put together from pieces. *)
Ltac obs_pieces :=
  unfold Obs.spawns, Obs.sleeps, Obs.file_writes, Obs.signals, Obs.probes,
    Obs.subprocesses in *;
  repeat first
    [ rewrite omap_app
    | rewrite omap_cons_None by reflexivity
    | match goal with
      | H : omap ?f ?tr = _ |- context [omap ?f ?tr] => rewrite H
      end ];
  try reflexivity.

(** X4 — When the server is not running and [check_node_installed]
    returns false, [start_server] returns normally right there: the probe
    and [node --version] are its only calls; it installs nothing, does not
    touch [.env], launches nothing and never sleeps or polls. *)
Theorem start_server_node_missing {S : Type} (h : Handler S) (s : S)
    (platform : string) :
  let probe := run h Manage.is_server_running s in
  let node := run h Manage.check_node_installed (final probe) in
  result probe = inr false ->
  result node = inr false ->
  let r := run h (Manage.start_server platform) s in
  result r = inr tt /\
  final r = final node /\
  trace r = AOut MsgStarting :: trace probe ++ trace node /\
  Obs.spawns (trace r) = [] /\
  Obs.sleeps (trace r) = [] /\
  Obs.file_writes (trace r) = [] /\
  Obs.probes (trace r) = [("http://localhost:3000/api/load-files", 2%Z)] /\
  Obs.subprocesses (trace r) = [["node"; "--version"]].
Proof.
  intros probe node Hprobe Hnode r. subst r. unfold Manage.start_server.
  rewrite run_print, (run_bind_ok h _ _ _ _ Hprobe). fold probe. cbv iota.
  rewrite (run_bind_ok h _ _ _ _ Hnode). fold node. cbn [negb]. cbv iota.
  cbn [run mret Prog_ret result final trace]. rewrite app_nil_r.
  destruct (quiet_is_server_running h s) as (Hp1 & Hp2 & Hp3 & Hp4 & Hp5 & Hp6).
  destruct (quiet_check_node_installed h (final probe))
    as (Hn1 & Hn2 & Hn3 & Hn4 & Hn5 & Hn6).
  fold probe in Hp1, Hp2, Hp3, Hp4, Hp5, Hp6.
  fold node in Hn1, Hn2, Hn3, Hn4, Hn5, Hn6.
  repeat split; obs_pieces.
Qed.

Lemma start_server_node_missing_witness :
  Obs.spawns (trace (run SimOS.os (Manage.start_server "linux") SimOS.bare)) = [].
Proof.
  apply (start_server_node_missing SimOS.os SimOS.bare "linux");
    vm_compute; reflexivity.
Defined.

(** X5 — When [check_dependencies] raises (a failed [npm install]), the
    exception leaves [start_server]: nothing is launched, no file is
    written, and there is no polling. *)
Theorem start_server_prerequisite_raises {S : Type} (h : Handler S) (s : S)
    (platform : string) (e : Exn) :
  let probe := run h Manage.is_server_running s in
  let node := run h Manage.check_node_installed (final probe) in
  let deps := run h Manage.check_dependencies (final node) in
  result probe = inr false ->
  result node = inr true ->
  result deps = inl e ->
  let r := run h (Manage.start_server platform) s in
  result r = inl e /\
  final r = final deps /\
  trace r = AOut MsgStarting :: trace probe ++ trace node ++ trace deps /\
  Obs.spawns (trace r) = [] /\
  Obs.sleeps (trace r) = [] /\
  Obs.file_writes (trace r) = [] /\
  Obs.probes (trace r) = [("http://localhost:3000/api/load-files", 2%Z)].
Proof.
  intros probe node deps Hprobe Hnode Hdeps r. subst r.
  unfold Manage.start_server.
  rewrite run_print, (run_bind_ok h _ _ _ _ Hprobe). fold probe. cbv iota.
  rewrite (run_bind_ok h _ _ _ _ Hnode). fold node. cbn [negb]. cbv iota.
  rewrite (run_bind_raise h _ _ _ _ Hdeps). fold deps.
  cbn [result final trace].
  destruct (quiet_is_server_running h s) as (Hp1 & Hp2 & Hp3 & Hp4 & Hp5 & Hp6).
  destruct (quiet_check_node_installed h (final probe))
    as (Hn1 & Hn2 & Hn3 & Hn4 & Hn5 & Hn6).
  destruct (quiet_check_dependencies h (final node))
    as (Hd1 & Hd2 & Hd3 & Hd4 & Hd5).
  fold probe in Hp1, Hp2, Hp3, Hp4, Hp5, Hp6.
  fold node in Hn1, Hn2, Hn3, Hn4, Hn5, Hn6.
  fold deps in Hd1, Hd2, Hd3, Hd4, Hd5.
  repeat split; obs_pieces.
Qed.

Lemma start_server_prerequisite_raises_witness :
  result (run Props.os_install_fails (Manage.start_server "linux") SimOS.fresh) =
  inl (CalledProcessError 1).
Proof.
  apply (start_server_prerequisite_raises Props.os_install_fails SimOS.fresh
           "linux" (CalledProcessError 1));
    vm_compute; reflexivity.
Defined.

(** X6 — When the launch call itself raises (no [npm] on the path),
    the exception leaves [start_server] at once: the launch was attempted
    once, and no poll follows it. *)
Theorem start_server_launch_refused {S : Type} (h : Handler S) (s : S)
    (platform : string) (has_valid_env : bool) (e : Exn) :
  let probe := run h Manage.is_server_running s in
  let node := run h Manage.check_node_installed (final probe) in
  let deps := run h Manage.check_dependencies (final node) in
  let env := run h Manage.check_env_file (final deps) in
  let launch := Popen (Manage.launch_args platform) in
  result probe = inr false ->
  result node = inr true ->
  result deps = inr tt ->
  result env = inr has_valid_env ->
  (h _ launch (final env)).1 = Some e ->
  let r := run h (Manage.start_server platform) s in
  result r = inl e /\
  trace r =
    AOut MsgStarting :: trace probe ++ trace node ++ trace deps ++ trace env ++
    [ACall launch (Some e)] /\
  Obs.spawns (trace r) = [Manage.launch_args platform] /\
  Obs.sleeps (trace r) = [] /\
  Obs.probes (trace r) = [("http://localhost:3000/api/load-files", 2%Z)].
Proof.
  intros probe node deps env launch Hprobe Hnode Hdeps Henv Hlaunch r. subst r.
  unfold Manage.start_server.
  rewrite run_print, (run_bind_ok h _ _ _ _ Hprobe). fold probe. cbv iota.
  rewrite (run_bind_ok h _ _ _ _ Hnode). fold node. cbn [negb]. cbv iota.
  rewrite (run_bind_ok h _ _ _ _ Hdeps). fold deps.
  rewrite (run_bind_ok h _ _ _ _ Henv). fold env.
  rewrite (run_raising_unit_raise h _ _ _ _ Hlaunch).
  cbn [result final trace].
  destruct (quiet_is_server_running h s) as (Hp1 & Hp2 & Hp3 & Hp4 & Hp5 & Hp6).
  destruct (quiet_check_node_installed h (final probe))
    as (Hn1 & Hn2 & Hn3 & Hn4 & Hn5 & Hn6).
  destruct (quiet_check_dependencies h (final node))
    as (Hd1 & Hd2 & Hd3 & Hd4 & Hd5).
  destruct (quiet_check_env_file h (final deps))
    as (He1 & He2 & He3 & He4 & He5).
  fold probe in Hp1, Hp2, Hp3, Hp4, Hp5, Hp6.
  fold node in Hn1, Hn2, Hn3, Hn4, Hn5, Hn6.
  fold deps in Hd1, Hd2, Hd3, Hd4, Hd5.
  fold env in He1, He2, He3, He4, He5.
  repeat split; obs_pieces.
Qed.

Lemma start_server_launch_refused_witness :
  result (run Props.os_launch_refused (Manage.start_server "linux") SimOS.idle) =
  inl FileNotFoundError.
Proof.
  apply (start_server_launch_refused Props.os_launch_refused SimOS.idle
           "linux" true FileNotFoundError);
    vm_compute; reflexivity.
Defined.

(** X7 — The top level never raises and gives an exit code: 0 when
    [main] returns, 0 with the interrupted line when [main] raised
    [KeyboardInterrupt], and 1 with the error line for every other
    exception; what [main] did before is left as it is. *)
Theorem script_exit_codes {S : Type} (h : Handler S) (s : S)
    (platform : string) (argv : list string) :
  let m := run h (Manage.main platform argv) s in
  let r := run h (Manage.script platform argv) s in
  final r = final m /\
  match result m with
  | inr _ => result r = inr 0%Z /\ trace r = trace m
  | inl KeyboardInterrupt =>
      result r = inr 0%Z /\ trace r = trace m ++ [AOut MsgInterrupted]
  | inl e => result r = inr 1%Z /\ trace r = trace m ++ [AOut (MsgError e)]
  end.
Proof.
  intros m r. subst r. unfold Manage.script.
  destruct (result m) as [e | []] eqn:Hm.
  - assert (Hraise : result (run h (Manage.main platform argv ;; mret 0%Z) s) = inl e)
      by (rewrite (run_bind_raise h _ _ _ _ Hm); reflexivity).
    rewrite (run_pcatch_raise h _ _ _ _ Hraise).
    rewrite (run_bind_raise h _ _ _ _ Hm). cbn [result final trace]. fold m.
    destruct e; cbn; repeat split.
  - assert (Hok : result (run h (Manage.main platform argv ;; mret 0%Z) s) = inr 0%Z)
      by (rewrite (run_bind_ok h _ _ _ _ Hm); reflexivity).
    rewrite (run_pcatch_ok h _ _ _ _ Hok).
    rewrite (run_bind_ok h _ _ _ _ Hm). cbn [result final trace run mret Prog_ret].
    fold m. rewrite app_nil_r. repeat split.
Qed.

(** ** Bounds on launches, probes and sleep *)

Section Budget.

Context {S : Type} (h : Handler S) (c : Cost.Measure).

Lemma within_weaken {A : Type} (p : Prog A) (n m : nat) :
  Cost.within c n p -> n <= m -> Cost.within c m p.
Proof.
  revert n m. induction p as [a | e | msg k IH | X e k IH]; intros n m Hp Hle;
    cbn [Cost.within] in *.
  - exact I.
  - exact I.
  - eapply IH; eassumption.
  - destruct Hp as [Hc Hk]. split; [lia |].
    intros x. eapply IH; [apply Hk | lia].
Qed.

Lemma within_sound {A : Type} (p : Prog A) (n : nat) (s : S) :
  Cost.within c n p -> Cost.total c (trace (run h p s)) <= n.
Proof.
  unfold Cost.total. revert n s.
  induction p as [a | e | msg k IH | X e k IH]; intros n s Hp.
  - simpl. lia.
  - simpl. lia.
  - simpl in *. apply IH, Hp.
  - cbn [Cost.within] in Hp. destruct Hp as [Hc Hk].
    specialize (IH _ (n - c X e) (h X e s).2 (Hk (h X e s).1)).
    cbn [run trace map Cost.of_action list_sum fold_right]. fold (list_sum (map (Cost.of_action c) (trace (run h (k (h X e s).1) (h X e s).2)))).
    lia.
Qed.

Lemma within_bind {A B : Type} (p : Prog A) (k : A -> Prog B) (n1 n2 : nat) :
  Cost.within c n1 p -> (forall a, Cost.within c n2 (k a)) ->
  Cost.within c (n1 + n2) (p ≫= k).
Proof.
  unfold mbind, Prog_bind. revert n1.
  induction p as [a | e | msg p IH | X e p IH]; intros n1 Hp Hk;
    cbn [Cost.within pbind] in *.
  - eapply within_weaken; [apply Hk | lia].
  - exact I.
  - apply IH; assumption.
  - destruct Hp as [Hc Hp]. split; [lia |].
    intros x. replace (n1 + n2 - c X e) with ((n1 - c X e) + n2) by lia.
    apply IH; [apply Hp | exact Hk].
Qed.

Lemma within_pcatch {A : Type} (p : Prog A) (handler : Exn -> Prog A)
    (n1 n2 : nat) :
  Cost.within c n1 p -> (forall e, Cost.within c n2 (handler e)) ->
  Cost.within c (n1 + n2) (pcatch p handler).
Proof.
  revert n1. induction p as [a | e | msg p IH | X e p IH]; intros n1 Hp Hk;
    cbn [Cost.within pcatch] in *.
  - exact I.
  - eapply within_weaken; [apply Hk | lia].
  - apply IH; assumption.
  - destruct Hp as [Hc Hp]. split; [lia |].
    intros x. replace (n1 + n2 - c X e) with ((n1 - c X e) + n2) by lia.
    apply IH; [apply Hp | exact Hk].
Qed.

Lemma within_mret {A : Type} (a : A) : Cost.within c 0 (mret a).
Proof. exact I. Qed.

Lemma within_raise {A : Type} (e : Exn) : Cost.within c 0 (@Raise A e).
Proof. exact I. Qed.

Lemma within_print (m : Msg) : Cost.within c 0 (print m).
Proof. exact I. Qed.

Lemma within_trigger {X : Type} (e : Event X) : Cost.within c (c X e) (trigger e).
Proof. split; [lia | intros x; exact I]. Qed.

Lemma within_raising {X : Type} (e : Event (Exn + X)) :
  Cost.within c (c _ e) (raising e).
Proof. split; [lia | intros [ex | x]; exact I]. Qed.

Lemma within_raising_unit (e : Event (option Exn)) :
  Cost.within c (c _ e) (raising_unit e).
Proof. split; [lia | intros [ex |]; exact I]. Qed.

Lemma within_if {A : Type} (b : bool) (p q : Prog A) (n1 n2 : nat) :
  Cost.within c n1 p -> Cost.within c n2 q ->
  Cost.within c (n1 + n2) (if b then p else q).
Proof.
  intros Hp Hq. destruct b; eapply within_weaken; try eassumption; lia.
Qed.

Lemma within_for_each {X : Type} (xs : list X) (body : X -> Prog unit) :
  (forall x, Cost.within c 0 (body x)) -> Cost.within c 0 (for_each xs body).
Proof.
  intros Hbody. induction xs as [| x xs IH]; [exact I |].
  cbn [for_each]. eapply (within_bind _ _ 0 0); [apply Hbody | intros _; exact IH].
Qed.

Lemma within_for_fold {X Acc : Type} (xs : list X) (acc : Acc)
    (body : Acc -> X -> Prog Acc) :
  (forall acc' x, Cost.within c 0 (body acc' x)) ->
  Cost.within c 0 (for_fold xs acc body).
Proof.
  intros Hbody. revert acc. induction xs as [| x xs IH]; intros acc; [exact I |].
  cbn [for_fold]. eapply (within_bind _ _ 0 0); [apply Hbody | intros acc'; apply IH].
Qed.

Lemma within_is_server_running :
  Cost.within c (c _ (RequestsGet Manage.SERVER_URL 2)) Manage.is_server_running.
Proof. split; [lia | intros [e | response]; exact I]. Qed.

Lemma within_report_started (has_valid_env : bool) :
  Cost.within c 0 (Manage.report_started has_valid_env).
Proof. destruct has_valid_env; exact I. Qed.

Lemma within_wait_until_ready (has_valid_env : bool) (rounds : nat) :
  Cost.within c
    (rounds * (c _ (Sleep 1) + c _ (RequestsGet Manage.SERVER_URL 2)))
    (Manage.wait_until_ready has_valid_env rounds).
Proof.
  induction rounds as [| rounds IH]; [exact I |].
  cbn [Manage.wait_until_ready].
  eapply within_weaken.
  - apply within_bind; [apply within_trigger | intros _].
    apply within_bind; [apply within_is_server_running | intros running].
    apply within_if; [apply within_report_started | exact IH].
  - cbn [Nat.mul]. lia.
Qed.

Lemma within_find_node_processes :
  Cost.within c (c _ (ProcessIter ["pid"; "name"; "cmdline"]))
    Manage.find_node_processes.
Proof.
  unfold Manage.find_node_processes.
  eapply within_weaken.
  - apply within_bind; [apply within_trigger | intros procs].
    apply within_for_fold. intros acc proc.
    unfold Manage.scan_process, try_except.
    apply (within_pcatch _ _ 0 0).
    + destruct proc as [info | e]; cbn [Manage.proc_info].
      * cbn. destruct (Manage.name_is_node info);
          [destruct (Manage.cmdline_has_server_js info) |]; exact I.
      * exact I.
    + intros e. destruct (Manage.is_NoSuchProcess_or_AccessDenied e); exact I.
  - lia.
Qed.

Lemma within_check_node_installed :
  Cost.within c (c _ (SubprocessRun ["node"; "--version"]))
    Manage.check_node_installed.
Proof.
  split; [lia |]. intros [e | completed].
  - destruct e; exact I.
  - cbn. destruct (returncode completed =? 0)%Z; exact I.
Qed.

Lemma within_check_dependencies :
  Cost.within c
    (c _ (PathExists "node_modules") + c _ (SubprocessRun ["npm"; "install"]))
    Manage.check_dependencies.
Proof.
  split; [lia |]. intros [|]; [exact I |].
  cbn. split; [lia |]. intros [e | completed]; [exact I |].
  cbn. destruct (returncode completed =? 0)%Z; exact I.
Qed.

Lemma within_check_env_file :
  Cost.within c
    (c _ (PathExists Manage.ENV_PATH) +
     (c _ (ReadFile Manage.ENV_PATH) +
      c _ (WriteFile Manage.ENV_PATH Manage.template_content)))
    Manage.check_env_file.
Proof.
  split; [lia |]. intros [|].
  - cbn [negb]. split; [lia |]. intros [e | content]; [exact I |].
    cbn. destruct (Manage.has_placeholder_keys content); exact I.
  - cbn [negb]. split; [lia |]. intros [e |]; exact I.
Qed.

Lemma within_start_server (platform : string) :
  Cost.within c (Cost.start_cost c platform) (Manage.start_server platform).
Proof.
  unfold Manage.start_server. eapply within_weaken.
  - apply within_bind; [apply within_print | intros _].
    apply within_bind; [apply within_is_server_running | intros running].
    apply within_if.
    + eapply (within_bind _ _ 0 0); [apply within_print | intros _; apply within_print].
    + apply within_bind; [apply within_check_node_installed | intros node].
      apply within_if; [apply within_mret |].
      apply within_bind; [apply within_check_dependencies | intros _].
      apply within_bind; [apply within_check_env_file | intros has_valid_env].
      apply within_bind; [apply within_raising_unit | intros _].
      apply within_bind; [apply within_print | intros _].
      apply within_wait_until_ready.
  - unfold Cost.start_cost, Cost.prerequisites_cost, Cost.probe_cost. lia.
Qed.

Hypothesis terminate_free : forall p, c _ (Terminate p) = 0.

Lemma within_terminate_process (p : Z) :
  Cost.within c 0 (Manage.terminate_process p).
Proof.
  split; [rewrite terminate_free; lia |]. intros [e |]; exact I.
Qed.

Lemma within_stop_server : Cost.within c (Cost.stop_cost c) Manage.stop_server.
Proof.
  unfold Manage.stop_server. eapply within_weaken.
  - apply within_bind; [apply within_print | intros _].
    eapply (within_bind _ _ _ (c _ (Sleep 1) + Cost.probe_cost c));
      [apply within_find_node_processes | intros pids].
    destruct pids as [| p pids]; [exact I |].
    eapply within_weaken.
    + apply within_bind;
        [apply within_for_each; intros; apply within_terminate_process | intros _].
      apply within_bind; [apply within_trigger | intros _].
      apply within_bind; [apply within_is_server_running | intros running].
      eapply (within_if _ _ _ 0 0); apply within_print.
    + unfold Cost.probe_cost. lia.
  - unfold Cost.stop_cost, Cost.scan_cost. lia.
Qed.

Lemma within_check_status :
  Cost.within c (Cost.status_cost c) Manage.check_status.
Proof.
  unfold Manage.check_status. eapply within_weaken.
  - apply within_bind; [apply within_print | intros _].
    apply within_bind; [apply within_is_server_running | intros running].
    eapply (within_if _ _ _ (Cost.scan_cost c) 0).
    + eapply (within_bind _ _ 0); [apply within_print | intros _].
      eapply (within_bind _ _ 0); [apply within_print | intros _].
      eapply within_weaken.
      * eapply (within_bind _ _ _ 0); [apply within_find_node_processes |].
        intros [| p pids]; exact I.
      * unfold Cost.scan_cost. lia.
    + exact I.
  - unfold Cost.status_cost, Cost.probe_cost. lia.
Qed.

Lemma within_show_help : Cost.within c 0 Manage.show_help.
Proof. exact I. Qed.

Lemma within_restart_server (platform : string) :
  Cost.within c (Cost.restart_cost c platform) (Manage.restart_server platform).
Proof.
  unfold Manage.restart_server. eapply within_weaken.
  - apply within_bind; [apply within_print | intros _].
    apply within_bind; [apply within_stop_server | intros _].
    apply within_bind; [apply within_trigger | intros _].
    apply within_bind; [apply within_print | intros _].
    apply within_start_server.
  - unfold Cost.restart_cost. lia.
Qed.

Lemma within_main (platform : string) (argv : list string) :
  Cost.within c (Cost.restart_cost c platform) (Manage.main platform argv).
Proof.
  rewrite main_dispatches.
  change (Cost.restart_cost c platform) with (0 + Cost.restart_cost c platform).
  apply within_bind; [exact I | intros _].
  assert (Hhelp : Cost.within c (Cost.restart_cost c platform) Manage.show_help)
    by (eapply within_weaken; [apply within_show_help | lia]).
  destruct argv as [| script [| first rest]]; try exact Hhelp.
  unfold Spec.dispatch.
  repeat match goal with
  | |- context [decide (?command = ?word)] => destruct (decide (command = word))
  end.
  - eapply within_weaken; [apply within_start_server |].
    unfold Cost.restart_cost. lia.
  - eapply within_weaken; [apply within_stop_server |].
    unfold Cost.restart_cost. lia.
  - apply within_restart_server.
  - eapply within_weaken; [apply within_check_status |].
    unfold Cost.restart_cost, Cost.status_cost, Cost.stop_cost, Cost.start_cost.
    lia.
  - exact Hhelp.
  - change (Cost.restart_cost c platform) with (0 + Cost.restart_cost c platform).
    apply within_bind; [exact I | intros _; exact Hhelp].
Qed.

End Budget.

Section Counting.

Lemma length_spawns (tr : list Action) :
  length (Obs.spawns tr) = Cost.total Cost.launching tr.
Proof.
  unfold Cost.total, Obs.spawns.
  induction tr as [| [m | X e x] tr IH]; [reflexivity | exact IH |].
  destruct e; cbn; first [exact IH | f_equal; exact IH].
Qed.

Lemma length_probes (tr : list Action) :
  length (Obs.probes tr) = Cost.total Cost.probing tr.
Proof.
  unfold Cost.total, Obs.probes.
  induction tr as [| [m | X e x] tr IH]; [reflexivity | exact IH |].
  destruct e; cbn; first [exact IH | f_equal; exact IH].
Qed.

Lemma seconds_slept (tr : list Action) :
  list_sum (map Z.to_nat (Obs.sleeps tr)) = Cost.total Cost.sleeping tr.
Proof.
  unfold Cost.total, Obs.sleeps.
  induction tr as [| [m | X e x] tr IH]; [reflexivity | exact IH |].
  destruct e; cbn; first [exact IH | f_equal; exact IH].
Qed.

End Counting.

(** X8 — In every environment [start_server] launches at most once,
    probes at most 11 times (one check and ten polls) and sleeps at most
    10 seconds in all. *)
Theorem start_server_bounds {S : Type} (h : Handler S) (s : S)
    (platform : string) :
  let tr := trace (run h (Manage.start_server platform) s) in
  length (Obs.spawns tr) <= 1 /\
  length (Obs.probes tr) <= 11 /\
  list_sum (map Z.to_nat (Obs.sleeps tr)) <= 10.
Proof.
  intros tr. subst tr.
  rewrite length_spawns, length_probes, seconds_slept.
  repeat split.
  - eapply Nat.le_trans;
      [apply within_sound, (within_start_server Cost.launching platform) |].
    unfold Manage.launch_args. destruct (String.eqb platform "win32"); cbn; lia.
  - eapply Nat.le_trans;
      [apply within_sound, (within_start_server Cost.probing platform) |].
    unfold Manage.launch_args. destruct (String.eqb platform "win32"); cbn; lia.
  - eapply Nat.le_trans;
      [apply within_sound, (within_start_server Cost.sleeping platform) |].
    unfold Manage.launch_args. destruct (String.eqb platform "win32"); cbn; lia.
Qed.

(** X9 — In every environment and for every command line, [main]
    launches at most one process, probes at most 12 times and sleeps at
    most 13 seconds in all (the bounds of a restart). *)
Theorem main_bounds {S : Type} (h : Handler S) (s : S)
    (platform : string) (argv : list string) :
  let tr := trace (run h (Manage.main platform argv) s) in
  length (Obs.spawns tr) <= 1 /\
  length (Obs.probes tr) <= 12 /\
  list_sum (map Z.to_nat (Obs.sleeps tr)) <= 13.
Proof.
  intros tr. subst tr.
  rewrite length_spawns, length_probes, seconds_slept.
  repeat split.
  - eapply Nat.le_trans;
      [apply within_sound, (within_main Cost.launching) |];
      [intros p; reflexivity |].
    unfold Manage.launch_args. destruct (String.eqb platform "win32"); cbn; lia.
  - eapply Nat.le_trans;
      [apply within_sound, (within_main Cost.probing) |];
      [intros p; reflexivity |].
    unfold Manage.launch_args. destruct (String.eqb platform "win32"); cbn; lia.
  - eapply Nat.le_trans;
      [apply within_sound, (within_main Cost.sleeping) |];
      [intros p; reflexivity |].
    unfold Manage.launch_args. destruct (String.eqb platform "win32"); cbn; lia.
Qed.

(** ** What [check_status], [stop_server] and the help never do *)

Section Footprint.

Context {S : Type} (h : Handler S).

Lemma result_stop_server (s : S) : result (run h Manage.stop_server s) = inr tt.
Proof.
  unfold Manage.stop_server.
  rewrite run_print, run_bind, run_find_node_processes.
  unfold then_run. cbn [result final trace].
  destruct (omap Spec.matching_pid _) as [| p pids]; [reflexivity |].
  rewrite run_bind.
  destruct (run_terminate_all h (p :: pids)
              (h _ (ProcessIter ["pid"; "name"; "cmdline"]) s).2)
    as [refusals [_ [Hres _]]].
  unfold then_run. rewrite Hres.
  rewrite run_trigger, run_bind, run_is_server_running.
  unfold then_run. cbn [result final trace].
  destruct (negb _); reflexivity.
Qed.

Lemma result_check_status (s : S) : result (run h Manage.check_status s) = inr tt.
Proof.
  unfold Manage.check_status.
  rewrite run_print, run_bind, run_is_server_running.
  unfold then_run. cbn [result final trace].
  destruct (Spec.answered_ok _); [| reflexivity].
  rewrite !run_print, run_bind, run_find_node_processes.
  unfold then_run. cbn [result final trace].
  destruct (omap Spec.matching_pid _); reflexivity.
Qed.

Lemma silent_stop_server {B : Type} (f : Action -> option B) :
  (forall m, f (AOut m) = None) ->
  (forall attrs x, f (ACall (ProcessIter attrs) x) = None) ->
  (forall p x, f (ACall (Terminate p) x) = None) ->
  (forall n x, f (ACall (Sleep n) x) = None) ->
  (forall url t x, f (ACall (RequestsGet url t) x) = None) ->
  Spec.silent f Manage.stop_server.
Proof.
  intros Hout Hscan Hterm Hsleep Hget.
  unfold Manage.stop_server, Manage.find_node_processes, Manage.scan_process,
    Manage.proc_info, Manage.terminate_process, Manage.is_server_running,
    try_except.
  repeat first
    [ apply silent_mret
    | apply silent_raise
    | apply silent_print; apply Hout
    | apply silent_trigger; intros; first [apply Hscan | apply Hterm | apply Hsleep]
    | apply silent_raising; intros; apply Hget
    | apply silent_bind; [| intros]
    | apply silent_pcatch; [| intros]
    | apply silent_for_each; intros
    | apply silent_for_fold; intros
    | match goal with
      | |- Spec.silent _ (if ?b then _ else _) => destruct b
      | |- Spec.silent _ (match ?x with _ => _ end) => destruct x
      end ].
Qed.

Lemma silent_check_status {B : Type} (f : Action -> option B) :
  (forall m, f (AOut m) = None) ->
  (forall attrs x, f (ACall (ProcessIter attrs) x) = None) ->
  (forall url t x, f (ACall (RequestsGet url t) x) = None) ->
  Spec.silent f Manage.check_status.
Proof.
  intros Hout Hscan Hget.
  unfold Manage.check_status, Manage.find_node_processes, Manage.scan_process,
    Manage.proc_info, Manage.is_server_running, try_except.
  repeat first
    [ apply silent_mret
    | apply silent_raise
    | apply silent_print; apply Hout
    | apply silent_trigger; intros; apply Hscan
    | apply silent_raising; intros; apply Hget
    | apply silent_bind; [| intros]
    | apply silent_pcatch; [| intros]
    | apply silent_for_fold; intros
    | match goal with
      | |- Spec.silent _ (if ?b then _ else _) => destruct b
      | |- Spec.silent _ (match ?x with _ => _ end) => destruct x
      end ].
Qed.

Lemma scans_stop_server (s : S) :
  Obs.scans (trace (run h Manage.stop_server s)) = [["pid"; "name"; "cmdline"]].
Proof.
  unfold Manage.stop_server, Obs.scans.
  rewrite run_print, run_bind, run_find_node_processes.
  unfold then_run. cbn [result final trace app].
  rewrite omap_cons_None by reflexivity.
  change (omap Obs.scan_of (ACall (ProcessIter ?attrs) ?x :: ?l))
    with (attrs :: omap Obs.scan_of l).
  f_equal. apply silent_sound.
  unfold Manage.terminate_process, Manage.is_server_running.
  silent_auto.
Qed.

Lemma run_help_only (s : S) :
  run h (Manage.print_header ;; Manage.show_help) s =
  mkRun (inr tt) s
    (map AOut [MsgHeaderTop; MsgHeaderTitle; MsgHeaderBottom; MsgDoc;
               MsgCommandsTitle; MsgHelpStart; MsgHelpStop; MsgHelpRestart;
               MsgHelpStatus; MsgHelpHelp]).
Proof. reflexivity. Qed.

Lemma run_unknown_command (command : string) (s : S) :
  run h (Manage.print_header ;;
         (print (MsgUnknownCommand command) ;; Manage.show_help)) s =
  mkRun (inr tt) s
    (map AOut [MsgHeaderTop; MsgHeaderTitle; MsgHeaderBottom;
               MsgUnknownCommand command; MsgDoc;
               MsgCommandsTitle; MsgHelpStart; MsgHelpStop; MsgHelpRestart;
               MsgHelpStatus; MsgHelpHelp]).
Proof. reflexivity. Qed.

End Footprint.

(** X10 — [check_status] only reads: it always returns normally, and
    it launches nothing, requests no termination, writes no file, runs no
    command and never sleeps. *)
Theorem check_status_read_only {S : Type} (h : Handler S) (s : S) :
  let r := run h Manage.check_status s in
  result r = inr tt /\
  Obs.spawns (trace r) = [] /\
  Obs.signals (trace r) = [] /\
  Obs.file_writes (trace r) = [] /\
  Obs.subprocesses (trace r) = [] /\
  Obs.sleeps (trace r) = [].
Proof.
  split; [apply result_check_status |].
  unfold Obs.spawns, Obs.signals, Obs.file_writes, Obs.subprocesses, Obs.sleeps.
  repeat split; apply silent_sound, silent_check_status; reflexivity.
Qed.

(** X11 — [stop_server] always returns normally, even when every
    termination is refused; it launches nothing, writes no file, runs no
    command, and scans the process table exactly once (the table is not
    read again after the terminations). *)
Theorem stop_server_footprint {S : Type} (h : Handler S) (s : S) :
  let r := run h Manage.stop_server s in
  result r = inr tt /\
  Obs.spawns (trace r) = [] /\
  Obs.file_writes (trace r) = [] /\
  Obs.subprocesses (trace r) = [] /\
  Obs.scans (trace r) = [["pid"; "name"; "cmdline"]].
Proof.
  split; [apply result_stop_server |].
  unfold Obs.spawns, Obs.file_writes, Obs.subprocesses.
  repeat split; try (apply silent_sound, silent_stop_server; reflexivity).
  apply scans_stop_server.
Qed.

(** X12 — A command line without a subcommand, or whose first argument
    is none of start, stop, restart and status in any case of letters,
    only prints: [main] makes no call into the environment, leaves it as
    it was, returns normally, and the help text is among the output. *)
Theorem help_has_no_effect {S : Type} (h : Handler S) (s : S)
    (platform : string) (argv : list string) :
  (forall first, nth_error argv 1 = Some first ->
                 ~ In (PyStr.lower first) ["start"; "stop"; "restart"; "status"]) ->
  let r := run h (Manage.main platform argv) s in
  result r = inr tt /\
  final r = s /\
  Obs.calls (trace r) = [] /\
  In MsgDoc (Obs.outputs (trace r)).
Proof.
  intros Hword r. subst r. rewrite main_dispatches.
  destruct argv as [| script [| first rest]].
  - rewrite run_help_only. cbn. intuition.
  - rewrite run_help_only. cbn. intuition.
  - specialize (Hword first eq_refl). cbn [In] in Hword.
    unfold Spec.dispatch.
    repeat match goal with
    | |- context [decide (?command = ?word)] => destruct (decide (command = word))
    end; try (exfalso; intuition congruence).
    + rewrite run_help_only. cbn. intuition.
    + rewrite run_unknown_command. cbn. intuition.
Qed.

Lemma help_has_no_effect_witness :
  final (run SimOS.os (Manage.main "linux" ["manage.py"; "frobnicate"]) SimOS.live) =
  SimOS.live.
Proof.
  apply (help_has_no_effect SimOS.os SimOS.live "linux" ["manage.py"; "frobnicate"]).
  intros first Hfirst. inversion Hfirst; subst first.
  vm_compute. intros [H | [H | [H | [H | []]]]]; discriminate.
Defined.

Section Order.

Lemma matching_sublist_visible (table : list Process) :
  omap Spec.matching_pid table `sublist_of` omap Props.visible_pid table.
Proof.
  induction table as [| [info | e] table IH].
  - constructor.
  - change (omap Props.visible_pid (Visible info :: table))
      with (pid info :: omap Props.visible_pid table).
    change (omap Spec.matching_pid (Visible info :: table))
      with (match Spec.matching_pid (Visible info) with
            | Some p => p :: omap Spec.matching_pid table
            | None => omap Spec.matching_pid table
            end).
    cbn [Spec.matching_pid].
    destruct (Manage.name_is_node info && Manage.cmdline_has_server_js info).
    + apply sublist_skip, IH.
    + apply sublist_cons, IH.
  - exact IH.
Qed.

End Order.

(** X13 — [find_node_processes] gives the identifiers in the order of
    the process table and at most one per process: the list is a sublist
    of the identifiers of the readable processes of the table. *)
Theorem find_node_processes_order {S : Type} (h : Handler S) (s : S) :
  let table := (h _ (ProcessIter ["pid"; "name"; "cmdline"]) s).1 in
  exists pids : list Z,
    result (run h Manage.find_node_processes s) = inr pids /\
    pids `sublist_of` omap Props.visible_pid table /\
    length pids <= length table.
Proof.
  intros table. rewrite run_find_node_processes. fold table.
  exists (omap Spec.matching_pid table). cbn [result].
  split; [reflexivity |]. split; [apply matching_sublist_visible |].
  clear. induction table as [| proc table IH]; [reflexivity |].
  change (omap Spec.matching_pid (proc :: table))
    with (match Spec.matching_pid proc with
          | Some p => p :: omap Spec.matching_pid table
          | None => omap Spec.matching_pid table
          end).
  destruct (Spec.matching_pid proc); cbn [length]; lia.
Qed.

Section Case.

Lemma lower_ascii_idempotent (c : ascii) :
  PyStr.lower_ascii (PyStr.lower_ascii c) = PyStr.lower_ascii c.
Proof.
  unfold PyStr.lower_ascii.
  destruct ((65 <=? nat_of_ascii c)%nat && (nat_of_ascii c <=? 90)%nat) eqn:Hup;
    [| rewrite Hup; reflexivity].
  apply andb_true_iff in Hup as [Hlo Hhi].
  apply Nat.leb_le in Hlo, Hhi.
  rewrite nat_ascii_embedding by lia.
  replace ((nat_of_ascii c + 32 <=? 90)%nat) with false
    by (symmetry; apply Nat.leb_gt; lia).
  rewrite andb_false_r. reflexivity.
Qed.

Lemma lower_idempotent (s : string) : PyStr.lower (PyStr.lower s) = PyStr.lower s.
Proof.
  induction s as [| c s IH]; [reflexivity |].
  cbn [PyStr.lower]. rewrite lower_ascii_idempotent, IH. reflexivity.
Qed.

End Case.

(** X14 — [main] depends on its argument list only through the
    lower-cased first argument: the script name, the case of the letters
    of the subcommand and all further arguments make no difference. *)
Theorem main_case_insensitive (platform script script' first : string)
    (rest rest' : list string) :
  Manage.main platform (script :: first :: rest) =
  Manage.main platform (script' :: PyStr.lower first :: rest').
Proof.
  rewrite !main_dispatches, lower_idempotent. reflexivity.
Qed.

(** ** The configuration file, created and read back *)

Section EnvRoundTrip.

Lemma os_check_env_absent (w : SimOS.World) :
  SimOS.files w !! Manage.ENV_PATH = None ->
  Manage.ENV_PATH ∉ SimOS.dirs w ->
  result (run SimOS.os Manage.check_env_file w) = inr false /\
  Obs.file_writes (trace (run SimOS.os Manage.check_env_file w)) =
    [(Manage.ENV_PATH, Manage.template_content)] /\
  final (run SimOS.os Manage.check_env_file w) =
    SimOS.with_files w (<[Manage.ENV_PATH := Manage.template_content]> (SimOS.files w)).
Proof.
  intros Hnone Hdir.
  assert (Habsent : (SimOS.os _ (PathExists Manage.ENV_PATH) w).1 = false).
  { cbn. rewrite Hnone.
    rewrite (bool_decide_eq_false_2 (is_Some None))
      by (intros [x Hx]; discriminate).
    rewrite bool_decide_eq_false_2 by exact Hdir. reflexivity. }
  split; [| split].
  - unfold Manage.check_env_file. rewrite run_trigger. cbn [result].
    rewrite Habsent. cbn [negb]. rewrite !run_print. cbn [result].
    rewrite run_raising_unit_ok by reflexivity. reflexivity.
  - rewrite file_writes_check_env_file, Habsent. reflexivity.
  - unfold Manage.check_env_file. rewrite run_trigger. cbn [final].
    rewrite Habsent. cbn [negb]. rewrite !run_print. cbn [final].
    rewrite run_raising_unit_ok by reflexivity. reflexivity.
Qed.

Lemma os_check_env_present (w : SimOS.World) (content : string) :
  SimOS.files w !! Manage.ENV_PATH = Some content ->
  result (run SimOS.os Manage.check_env_file w) =
    inr (negb (Manage.has_placeholder_keys content)) /\
  Obs.file_writes (trace (run SimOS.os Manage.check_env_file w)) = [] /\
  final (run SimOS.os Manage.check_env_file w) = w.
Proof.
  intros Hsome.
  assert (Hpresent : (SimOS.os _ (PathExists Manage.ENV_PATH) w).1 = true)
    by (apply (os_env_present content), Hsome).
  assert (Hread : (SimOS.os _ (ReadFile Manage.ENV_PATH) w).1 = inr content)
    by (cbn; rewrite Hsome; reflexivity).
  split; [| split].
  - unfold Manage.check_env_file. rewrite run_trigger. cbn [result].
    rewrite Hpresent. cbn [negb].
    unfold raising, trigger, mbind, Prog_bind. cbn [pbind run result].
    change ((SimOS.os _ (PathExists Manage.ENV_PATH) w).2) with w.
    rewrite Hread. cbn [pbind mret Prog_ret].
    destruct (Manage.has_placeholder_keys content); reflexivity.
  - rewrite file_writes_check_env_file, Hpresent. reflexivity.
  - unfold Manage.check_env_file. rewrite run_trigger. cbn [final].
    rewrite Hpresent. cbn [negb].
    unfold raising, trigger, mbind, Prog_bind. cbn [pbind run final].
    change ((SimOS.os _ (PathExists Manage.ENV_PATH) w).2) with w.
    rewrite Hread. cbn [pbind mret Prog_ret].
    change ((SimOS.os _ (ReadFile Manage.ENV_PATH) w).2) with w.
    destruct (Manage.has_placeholder_keys content); reflexivity.
Qed.

End EnvRoundTrip.

(** X15 — On the simulated machine, a [.env] that [check_env_file] has
    just created from the template does not pass the next check: the
    second run finds the file, reads the template back, returns false
    again, and changes nothing. *)
Theorem created_env_file_is_flagged (w : SimOS.World) :
  SimOS.files w !! ".env" = None ->
  ".env" ∉ SimOS.dirs w ->
  let first := run SimOS.os Manage.check_env_file w in
  let second := run SimOS.os Manage.check_env_file (final first) in
  result first = inr false /\
  SimOS.files (final first) !! ".env" = Some Manage.template_content /\
  result second = inr false /\
  Obs.file_writes (trace second) = [] /\
  final second = final first.
Proof.
  intros Hnone Hdir first second.
  destruct (os_check_env_absent w Hnone Hdir) as (Hres & _ & Hfinal).
  fold first in Hres, Hfinal.
  assert (Hfile : SimOS.files (final first) !! Manage.ENV_PATH =
                  Some Manage.template_content)
    by (rewrite Hfinal; apply lookup_insert_eq).
  destruct (os_check_env_present (final first) _ Hfile) as (Hres2 & Hw2 & Hfinal2).
  fold second in Hres2, Hw2, Hfinal2.
  repeat split; try assumption.
Qed.

Lemma created_env_file_is_flagged_witness :
  result (run SimOS.os Manage.check_env_file
            (final (run SimOS.os Manage.check_env_file SimOS.fresh))) = inr false.
Proof.
  apply (created_env_file_is_flagged SimOS.fresh).
  - vm_compute. reflexivity.
  - vm_compute. intros H. inversion H.
Defined.

(** ** The test on the Perplexity key *)

Section KeyCount.

Lemma count_from_skip (sub a post : string) :
  PyStr.count_from sub (a +:+ post) (String.length a) =
  PyStr.count_from sub post 0.
Proof.
  induction a as [| c a IH]; [destruct post; reflexivity |].
  exact IH.
Qed.

Lemma count_from_absent (sub s : string) (skip : nat) :
  sub <> EmptyString ->
  PyStr.contains sub s = false ->
  PyStr.count_from sub s skip = 0.
Proof.
  intros Hsub. revert skip. induction s as [| c s IH]; intros skip Hnone.
  - destruct skip; [| reflexivity]. cbn.
    destruct sub; [congruence | reflexivity].
  - rewrite contains_unfold in Hnone. apply orb_false_iff in Hnone as [Hpre Hrest].
    cbn [PyStr.count_from]. destruct skip as [| skip].
    + rewrite Hpre. apply IH, Hrest.
    + apply IH, Hrest.
Qed.

Lemma append_cons (c : ascii) (a b : string) :
  String c a +:+ b = String c (a +:+ b).
Proof. reflexivity. Qed.

Lemma append_nil (b : string) : EmptyString +:+ b = b.
Proof. reflexivity. Qed.

(** "pplx-" does not overlap itself: where it starts inside [u] and
    reaches into a following "pplx-", it already lies within [u]. *)
Lemma pplx_no_overlap (u post : string) :
  String.prefix "pplx-" (u +:+ "pplx-" +:+ post) = true ->
  u = EmptyString \/ String.prefix "pplx-" u = true.
Proof.
  destruct u as [| a [| b [| c [| d [| e u]]]]]; [left; reflexivity | | | | |];
    intros Hp; right; rewrite ?append_cons, ?append_nil in Hp;
    rewrite ?append_cons, ?append_nil in Hp;
    cbn [String.prefix] in Hp |- *;
    repeat (match goal with
            | H : context [Ascii.ascii_dec ?x ?y] |- _ =>
                destruct (Ascii.ascii_dec x y) as [Heq | Hne];
                [try discriminate Heq; try subst | try discriminate H]
            end; cbn [String.prefix String.append] in * );
    try discriminate; try reflexivity;
    repeat (match goal with
            | |- context [Ascii.ascii_dec ?x ?y] =>
                destruct (Ascii.ascii_dec x y) as [Heq | Hne];
                [| congruence]
            end; cbn [String.prefix] ); try reflexivity.
  destruct u; reflexivity.
Qed.

Lemma count_single_pplx (pre post : string) :
  PyStr.contains "pplx-" pre = false ->
  PyStr.contains "pplx-" post = false ->
  PyStr.count (pre +:+ "pplx-" +:+ post) "pplx-" = 1.
Proof.
  intros Hpre Hpost. unfold PyStr.count.
  induction pre as [| c pre IH].
  - rewrite append_nil.
    change ("pplx-" +:+ post) with (String "p" ("plx-" +:+ post)).
    cbn [PyStr.count_from].
    replace (String.prefix "pplx-" (String "p" ("plx-" +:+ post))) with true
      by (symmetry; apply prefix_spec; exists post; reflexivity).
    change (String.length "pplx-" - 1) with (String.length "plx-").
    rewrite count_from_skip, count_from_absent by (congruence || assumption).
    reflexivity.
  - rewrite contains_unfold in Hpre. apply orb_false_iff in Hpre as [Hhere Hrest].
    change ((String c pre) +:+ "pplx-" +:+ post)
      with (String c (pre +:+ "pplx-" +:+ post)).
    cbn [PyStr.count_from].
    destruct (String.prefix "pplx-" (String c (pre +:+ "pplx-" +:+ post))) eqn:Hp.
    + apply (pplx_no_overlap (String c pre) post) in Hp as [Hnil | Hin];
        [discriminate | congruence].
    + apply IH, Hrest.
Qed.

End KeyCount.

(** X16 — A [.env] in which "pplx-" occurs exactly once, as in a file
    with one filled-in Perplexity key, is counted as holding a
    placeholder: [check_env_file] returns false and prints that the keys
    need to be updated. *)
Theorem single_perplexity_key_is_flagged {S : Type} (h : Handler S) (s : S)
    (pre post : string) :
  ~ Spec.Substring "pplx-" pre ->
  ~ Spec.Substring "pplx-" post ->
  (h _ (PathExists ".env") s).1 = true ->
  (h _ (ReadFile ".env") (h _ (PathExists ".env") s).2).1 =
    inr (pre +:+ "pplx-" +:+ post) ->
  PyStr.count (pre +:+ "pplx-" +:+ post) "pplx-" = 1 /\
  Manage.has_placeholder_keys (pre +:+ "pplx-" +:+ post) = true /\
  result (run h Manage.check_env_file s) = inr false /\
  In MsgEnvKeysNeedUpdate (Obs.outputs (trace (run h Manage.check_env_file s))).
Proof.
  intros Hpre Hpost Hpresent Hread.
  assert (Hcount : PyStr.count (pre +:+ "pplx-" +:+ post) "pplx-" = 1).
  { apply count_single_pplx.
    - destruct (PyStr.contains "pplx-" pre) eqn:Hc; [| reflexivity].
      apply contains_spec in Hc. contradiction.
    - destruct (PyStr.contains "pplx-" post) eqn:Hc; [| reflexivity].
      apply contains_spec in Hc. contradiction. }
  assert (Hflag : Manage.has_placeholder_keys (pre +:+ "pplx-" +:+ post) = true).
  { unfold Manage.has_placeholder_keys. rewrite Hcount.
    rewrite orb_true_r. reflexivity. }
  split; [exact Hcount |]. split; [exact Hflag |].
  unfold Manage.check_env_file, raising, trigger, mbind, Prog_bind,
    Manage.ENV_PATH.
  cbn [pbind run result final trace]. rewrite Hpresent. cbn [negb].
  cbn [pbind run result final trace]. rewrite Hread.
  cbn [pbind mret Prog_ret]. rewrite Hflag. cbn. auto.
Qed.

Lemma single_perplexity_key_is_flagged_witness :
  result (run SimOS.os Manage.check_env_file Props.configured) = inr false.
Proof.
  apply (single_perplexity_key_is_flagged SimOS.os Props.configured
           ("CLAUDE_API_KEY=sk-ant-api03-abc" +:+ Manage.NL +:+ "PERPLEXITY_API_KEY=")
           ("0123456789" +:+ Manage.NL +:+ "PORT=3000" +:+ Manage.NL)).
  - intros Hsub. apply contains_spec in Hsub. vm_compute in Hsub. discriminate.
  - intros Hsub. apply contains_spec in Hsub. vm_compute in Hsub. discriminate.
  - vm_compute. reflexivity.
  - vm_compute. reflexivity.
Defined.

(** ** A restart of a server that cannot be stopped *)

Section RestartStill.

Context {S : Type} (h : Handler S).

Lemma run_start_server_running (platform : string) (s : S) :
  result (run h Manage.is_server_running s) = inr true ->
  run h (Manage.start_server platform) s =
  mkRun (inr tt) (final (run h Manage.is_server_running s))
    (AOut MsgStarting :: trace (run h Manage.is_server_running s) ++
     [AOut MsgAlreadyRunning; AOut MsgAccessItAt]).
Proof.
  intros Hlive. unfold Manage.start_server.
  rewrite run_print, (run_bind_ok h _ _ _ _ Hlive). cbv iota.
  rewrite run_print, run_print1. reflexivity.
Qed.

End RestartStill.

(** X17 — When the server still answers after the stop phase and the
    pause of two seconds, [restart_server] launches nothing: it ends with
    the already-running notice of [start_server]. *)
Theorem restart_server_still_running {S : Type} (h : Handler S) (s : S)
    (platform : string) :
  let stop := run h Manage.stop_server s in
  let paused := (h _ (Sleep 2) (final stop)).2 in
  let probe := run h Manage.is_server_running paused in
  result probe = inr true ->
  let r := run h (Manage.restart_server platform) s in
  result r = inr tt /\
  Obs.spawns (trace r) = [] /\
  trace r =
    AOut MsgRestarting :: trace stop ++
    [ACall (Sleep 2) tt; AOut MsgBlank; AOut MsgStarting] ++ trace probe ++
    [AOut MsgAlreadyRunning; AOut MsgAccessItAt].
Proof.
  intros stop paused probe Hlive r. subst r. unfold Manage.restart_server.
  rewrite run_print, (run_bind_ok h _ _ _ _ (result_stop_server h s)).
  fold stop. rewrite run_trigger, run_print. fold paused.
  rewrite (run_start_server_running h platform paused Hlive). fold probe.
  cbn [result final trace].
  replace (h _ (Sleep 2) (final stop)).1 with tt
    by (destruct (h _ (Sleep 2) (final stop)).1; reflexivity).
  split; [reflexivity |]. split; [| reflexivity].
  unfold Obs.spawns. rewrite omap_cons_None by reflexivity.
  rewrite omap_app. subst stop.
  rewrite (silent_sound h Obs.spawn_of Manage.stop_server s)
    by (apply silent_stop_server; reflexivity).
  cbn [app]. rewrite !omap_cons_None by reflexivity.
  rewrite omap_app. subst probe. rewrite run_is_server_running. reflexivity.
Qed.

Lemma restart_server_still_running_witness :
  Obs.spawns (trace (run SimOS.os (Manage.restart_server "linux")
                       Props.shielded_live)) = [].
Proof.
  apply (restart_server_still_running SimOS.os Props.shielded_live "linux").
  vm_compute. reflexivity.
Defined.

(** ** The exact trace of [restart_server] *)

(** C6, as amended — [restart_server] prints its announcement, does what
    [stop_server] does, sleeps two seconds, prints a blank line, and does
    what [start_server] does from the environment the pause left: its
    trace is exactly these five pieces in this order.  The sequence
    [stop_server], sleep of two seconds, [start_server] has the same trace
    without the two lines, so both make the same calls, answered alike,
    give the same result and leave the same environment.  Nothing but the
    environment goes from the stop to the start. *)
Theorem restart_server_exact_trace {S : Type} (h : Handler S) (s : S)
    (platform : string) :
  let stop := run h Manage.stop_server s in
  let paused := (h _ (Sleep 2) (final stop)).2 in
  let start := run h (Manage.start_server platform) paused in
  let r := run h (Manage.restart_server platform) s in
  let r' := run h (Spec.restart_spec platform) s in
  trace r =
    AOut MsgRestarting :: trace stop ++
    [ACall (Sleep 2) tt; AOut MsgBlank] ++ trace start /\
  trace r' = trace stop ++ [ACall (Sleep 2) tt] ++ trace start /\
  result r = result start /\
  result r' = result start /\
  final r = final start /\
  final r' = final start /\
  Obs.calls (trace r) = Obs.calls (trace r').
Proof.
  intros stop paused start r r'.
  assert (Hr : r = mkRun (result start) (final start)
                 (AOut MsgRestarting :: trace stop ++
                  [ACall (Sleep 2) tt; AOut MsgBlank] ++ trace start)).
  { subst r. unfold Manage.restart_server.
    rewrite run_print, (run_bind_ok h _ _ _ _ (result_stop_server h s)).
    fold stop. rewrite run_trigger, run_print. fold paused start.
    cbn [result final trace].
    replace (h _ (Sleep 2) (final stop)).1 with tt
      by (destruct (h _ (Sleep 2) (final stop)).1; reflexivity).
    reflexivity. }
  assert (Hr' : r' = mkRun (result start) (final start)
                  (trace stop ++ [ACall (Sleep 2) tt] ++ trace start)).
  { subst r'. unfold Spec.restart_spec.
    rewrite (run_bind_ok h _ _ _ _ (result_stop_server h s)).
    fold stop. rewrite run_trigger. fold paused start.
    cbn [result final trace].
    replace (h _ (Sleep 2) (final stop)).1 with tt
      by (destruct (h _ (Sleep 2) (final stop)).1; reflexivity).
    reflexivity. }
  rewrite Hr, Hr'. cbn [result final trace].
  repeat split.
  unfold Obs.calls. cbn [List.filter Obs.is_call].
  rewrite !List.filter_app. reflexivity.
Qed.

(** C6 as stated fails: on the machine with the server up, the output of
    [restart_server] begins with its announcement and holds a blank line
    before the start, which the output of the sequence [stop_server],
    sleep, [start_server] does not; the traces differ. *)
Lemma restart_server_prints_own_lines :
  let r := run SimOS.os (Manage.restart_server "linux") SimOS.live in
  let r' := run SimOS.os (Spec.restart_spec "linux") SimOS.live in
  Obs.outputs (trace r) <> Obs.outputs (trace r') /\
  trace r <> trace r' /\
  head (Obs.outputs (trace r)) = Some MsgRestarting /\
  head (Obs.outputs (trace r')) = Some MsgStopping /\
  In MsgBlank (Obs.outputs (trace r)) /\
  ~ In MsgBlank (Obs.outputs (trace r')).
Proof.
  intros r r'.
  assert (Hout : Obs.outputs (trace r) <> Obs.outputs (trace r'))
    by (vm_compute; discriminate).
  split; [exact Hout |].
  split; [intros Heq; apply Hout; rewrite Heq; reflexivity |].
  split; [vm_compute; reflexivity |].
  split; [vm_compute; reflexivity |].
  split.
  - vm_compute. do 4 right. left. reflexivity.
  - vm_compute. intros Hin.
    repeat (destruct Hin as [Hin | Hin]; [discriminate |]). exact Hin.
Qed.

(** ** Further runs on the simulated machine *)

Section MoreRuns.

(** A server that needs thirty seconds: ten polls, then the failure line. *)
Example start_gives_up :
  let tr := trace (run SimOS.os (Manage.start_server "linux") Props.slow) in
  length (Obs.probes tr) = 11 /\
  list_sum (map Z.to_nat (Obs.sleeps tr)) = 10 /\
  length (Obs.spawns tr) = 1 /\
  last (Obs.outputs tr) = Some MsgFailedToStart.
Proof. vm_compute. repeat split. Qed.

(** An interrupt while [node --version] runs ends the script with the
    interrupted line and exit code 0. *)
Example interrupt_exit_code :
  let r := run Props.os_interrupted (Manage.script "linux" ["manage.py"; "start"])
             SimOS.idle in
  result r = inr 0%Z /\ last (Obs.outputs (trace r)) = Some MsgInterrupted.
Proof. vm_compute. repeat split. Qed.

(** A failed [npm install] ends the script with exit code 1. *)
Example failed_install_exit_code :
  let r := run Props.os_install_fails (Manage.script "linux" ["manage.py"; "start"])
             SimOS.fresh in
  result r = inr 1%Z /\
  last (Obs.outputs (trace r)) = Some (MsgError (CalledProcessError 1)).
Proof. vm_compute. repeat split. Qed.

(** A process that denies termination: reported, and the server is found
    still running. *)
Example stop_refused :
  Obs.outputs (trace (run SimOS.os Manage.stop_server Props.shielded_live)) =
  [MsgStopping; MsgCouldNotStop 4242; MsgMayStillRun].
Proof. vm_compute. reflexivity. Qed.

End MoreRuns.
